(** * mproject: owner/repo URLs, environment provisioning, requirements

    A shallow embedding of [src/mproject/__init__.py].  Python exceptions
    are values of [Py.exn] carried by the [Py.result] monad; the external
    world (file system, spawned programs, the [furl] membership test) is
    passed explicitly.  Strings are byte strings in UTF-8, whose
    lexicographic order coincides with Python's code point order. *)

From Stdlib Require Import ZArith Ascii.
From stdpp Require Import base strings list gmap sorting.

Local Open Scope Z_scope.

(** ** Python exceptions and results *)

Module Py.

Inductive exn : Type :=
  | ValueError (msg : string)
  | TypeError (msg : string)
  | NameError (name : string)
  | UnboundLocalError (name : string)
  | CalledProcessError (returncode : Z) (cmd : list string).

Inductive result (A : Type) : Type :=
  | Ok (a : A)
  | Raise (e : exn).
Global Arguments Ok {A} a.
Global Arguments Raise {A} e.

Global Instance result_ret : MRet result := fun A a => Ok a.
Global Instance result_bind : MBind result := fun A B f m =>
  match m with
  | Ok a => f a
  | Raise e => Raise e
  end.

Global Instance result_fmap : FMap result := fun A B f m =>
  match m with
  | Ok a => Ok (f a)
  | Raise e => Raise e
  end.

Definition raises {A} (m : result A) : Prop := exists e, m = Raise e.

Definition is_ValueError (e : exn) : bool :=
  match e with ValueError _ => true | _ => false end.

(** [s.startswith(p)] *)
Definition startswith (s p : string) : bool := String.prefix p s.

(** [sub in s] on strings *)
Definition contains (sub s : string) : bool :=
  match String.index 0 sub s with Some _ => true | None => false end.

(** [s.split(c)] for a one-character separator *)
Fixpoint split (c : ascii) (s : string) : list string :=
  match s with
  | EmptyString => [EmptyString]
  | String a s' =>
      if Ascii.eqb a c then EmptyString :: split c s'
      else match split c s' with
           | [] => [String a EmptyString]
           | x :: xs => String a x :: xs
           end
  end.

(** [s.lstrip(c)] *)
Fixpoint lstrip (c : ascii) (s : string) : string :=
  match s with
  | EmptyString => EmptyString
  | String a s' => if Ascii.eqb a c then lstrip c s' else s
  end.

(** [s.rfind(c)], [None] standing for -1 *)
Fixpoint rfind (c : ascii) (s : string) : option nat :=
  match s with
  | EmptyString => None
  | String a s' =>
      match rfind c s' with
      | Some i => Some (S i)
      | None => if Ascii.eqb a c then Some O else None
      end
  end.

(** [s.lower()] on ASCII letters *)
Definition lower_ascii (a : ascii) : ascii :=
  let n := nat_of_ascii a in
  if (65 <=? n)%nat && (n <=? 90)%nat then ascii_of_nat (n + 32) else a.

Fixpoint lower (s : string) : string :=
  match s with
  | EmptyString => EmptyString
  | String a s' => String (lower_ascii a) (lower s')
  end.

(** Truthiness of a [str] *)
Definition truthy (s : string) : bool := negb (String.eqb s "").

End Py.

Import Py.

(** ** [pathlib.PurePosixPath] (as far as the module uses it) *)

Module pathlib.

(** [root] is [""], ["/"] or ["//"]; [parts] are the components after it. *)
Record Path : Type := mkPath { root : string; parts : list string }.

Definition splitroot (part : string) : string * string :=
  if startswith part "/" then
    let stripped := lstrip "/" part in
    if (String.length part - String.length stripped =? 2)%nat
    then ("//", stripped) else ("/", stripped)
  else ("", part).

Definition keep_part (x : string) : bool :=
  truthy x && negb (String.eqb x ".").

(** [Path(s)] *)
Definition parse (s : string) : Path :=
  let '(rt, rel) := splitroot s in
  mkPath rt (filter (fun x => Is_true (keep_part x)) (split "/" rel)).

(** [str(p)] *)
Definition str (p : Path) : string :=
  let s := root p +:+ String.concat "/" (parts p) in
  if truthy s then s else ".".

(** [p.name] *)
Definition name (p : Path) : string := List.last (parts p) "".

(** [p.parent] *)
Definition parent (p : Path) : Path := mkPath (root p) (removelast (parts p)).

(** [p.suffix] *)
Definition suffix (p : Path) : string :=
  let n := name p in
  match rfind "." n with
  | Some i =>
      if (0 <? i)%nat && (i <? String.length n - 1)%nat
      then String.substring i (String.length n - i) n else ""
  | None => ""
  end.

Definition is_absolute (p : Path) : bool := truthy (root p).

(** [p.absolute()], [cwd] being the working directory of the process *)
Definition absolute (cwd : string) (p : Path) : Path :=
  if is_absolute p then p
  else mkPath (root (parse cwd)) (parts (parse cwd) ++ parts p).

(** [name[:-len(old_suffix)] + suffix], or [name + suffix] without an old one *)
Definition replace_suffix (n old sfx : string) : string :=
  if truthy old
  then String.substring 0 (String.length n - String.length old) n +:+ sfx
  else n +:+ sfx.

(** [p.with_suffix(sfx)] *)
Definition with_suffix (p : Path) (sfx : string) : result Path :=
  if contains "/" sfx then
    Raise (ValueError ("Invalid suffix '" +:+ sfx +:+ "'"))
  else if (truthy sfx && negb (startswith sfx ".")) || String.eqb sfx "." then
    Raise (ValueError ("Invalid suffix '" +:+ sfx +:+ "'"))
  else if negb (truthy (name p)) then
    Raise (ValueError ("PosixPath('" +:+ str p +:+ "') has an empty name"))
  else
    Ok (mkPath (root p)
               (removelast (parts p) ++ [replace_suffix (name p) (suffix p) sfx])).

End pathlib.

(** ** The [furl] URL object

    [furl] is a third-party library; this is its behaviour for the keyword
    arguments the module passes ([scheme], [host], [path] as a list of
    segments, [username]) and for rendering the resulting object
    ([furl.tostr] over [urllib.parse.urlunsplit] and [urllib.parse.quote]).
    No port, password, query or fragment is ever set by the module, and the
    empty-string scheme and netloc, which it never passes, are left out. *)

Module furl.

Record kwargs : Type := mkKwargs {
  kw_scheme : option string;
  kw_host : option string;
  kw_path : option (list string);
  kw_username : option string
}.

Record t : Type := mk {
  scheme : option string;
  username : option string;
  host : option string;
  segments : list string;
  loaded_absolute : bool
}.

(** [Path.load] with a list of segments, on a fresh object. *)
Definition load_path (path : list string) : list string * bool :=
  match path with
  | s :: rest =>
      if String.eqb s "" then
        (match rest with [] => path | _ :: _ => rest end, true)
      else (path, false)
  | [] => ([], false)
  end.

(** The constructor [furl] applied to keyword arguments. *)
Definition new (kw : kwargs) : t :=
  let '(segs, isabs) := load_path (default [] (kw_path kw)) in
  mk (lower <$> kw_scheme kw) (kw_username kw) (lower <$> kw_host kw) segs isabs.

Definition hex_digit (n : nat) : ascii :=
  nth n (String.list_ascii_of_string "0123456789ABCDEF") "0"%char.

Definition always_safe (a : ascii) : bool :=
  let n := nat_of_ascii a in
  ((65 <=? n)%nat && (n <=? 90)%nat) || ((97 <=? n)%nat && (n <=? 122)%nat)
  || ((48 <=? n)%nat && (n <=? 57)%nat)
  || existsb (Ascii.eqb a) (String.list_ascii_of_string "_.-~").

(** [urllib.parse.quote(s, safe)] on the UTF-8 bytes of [s] *)
Fixpoint quote (safe : string) (s : string) : string :=
  match s with
  | EmptyString => EmptyString
  | String a s' =>
      if always_safe a || existsb (Ascii.eqb a) (String.list_ascii_of_string safe)
      then String a (quote safe s')
      else let n := nat_of_ascii a in
           String "%" (String (hex_digit (n / 16))
                              (String (hex_digit (n mod 16)) (quote safe s')))
  end.

Definition SAFE_SEGMENT_CHARS : string := ":@-._~!$&'()*+,;=".

(** The [netloc] property. *)
Definition netloc (u : t) : option string :=
  let userpass := quote "" (default "" (username u)) in
  let userpass :=
    if truthy userpass || bool_decide (is_Some (username u))
    then userpass +:+ "@" else userpass in
  if truthy userpass || truthy (default "" (host u))
  then Some (userpass +:+ default "" (host u))
  else host u.

Definition isabsolute (u : t) : bool :=
  (bool_decide (segments u <> []) && truthy (default "" (netloc u)))
  || loaded_absolute u.

(** [str(u.path)] *)
Definition path_str (u : t) : string :=
  let segs :=
    if isabsolute u
    then match segments u with [] => [""; ""] | _ => "" :: segments u end
    else segments u in
  String.concat "/" (quote SAFE_SEGMENT_CHARS <$> segs).

Definition uses_netloc : list string :=
  [""; "ftp"; "http"; "gopher"; "nntp"; "telnet"; "imap"; "wais"; "file";
   "mms"; "https"; "shttp"; "snews"; "prospero"; "rtsp"; "rtspu"; "rsync";
   "svn"; "svn+ssh"; "sftp"; "nfs"; "git"; "git+ssh"; "ws"; "wss"].

(** [urllib.parse.urlunsplit] with an empty query and fragment *)
Definition urlunsplit (sch : string) (nl : option string) (path : string) : string :=
  let url :=
    if truthy (default "" nl)
       || (truthy sch && bool_decide (sch ∈ uses_netloc)
           && negb (startswith path "//"))
    then "//" +:+ default "" nl
         +:+ (if truthy path && negb (startswith path "/")
              then "/" +:+ path else path)
    else path in
  if truthy sch then sch +:+ ":" +:+ url else url.

(** [u.url], that is [u.tostr()] *)
Definition tostr (u : t) : string :=
  urlunsplit (default "" (scheme u)) (netloc u) (path_str u).

End furl.

(** ** Module constants *)

Definition GIT_DEFAULT_SCHEME : string := "https".
Definition GITHUB_DOMAIN : string := "github.com".

Definition GITHUB_URL : gmap string string :=
  {[ "api" := "https://api." +:+ GITHUB_DOMAIN +:+ "/";
     "git+file" := "git+file:///";
     "git+https" := "git+https://" +:+ GITHUB_DOMAIN +:+ "/";
     "git+ssh" := "git+ssh://git@" +:+ GITHUB_DOMAIN +:+ "/";
     "https" := "https://" +:+ GITHUB_DOMAIN +:+ "/";
     "ssh" := "git@" +:+ GITHUB_DOMAIN +:+ ":" ]}.

(** [GitScheme = Literal["git+file", "git+https", "git+ssh", "https", "ssh"]] *)
Inductive GitScheme : Type :=
  | git_file | git_https | git_ssh | https | ssh.

Definition scheme_str (s : GitScheme) : string :=
  match s with
  | git_file => "git+file"
  | git_https => "git+https"
  | git_ssh => "git+ssh"
  | https => "https"
  | ssh => "ssh"
  end.

(** Module-level names bound to a [str]; [repo] and [owner] are not among
    the names the module binds at top level. *)
Definition module_globals : gmap string string :=
  {[ "GIT_DEFAULT_SCHEME" := GIT_DEFAULT_SCHEME;
     "GITHUB_DOMAIN" := GITHUB_DOMAIN;
     "__project__" := "mproject" ]}.

(** Reading a local variable that may not have been assigned. *)
Definition load_fast {A} (name : string) (v : option A) : result A :=
  match v with
  | Some a => Ok a
  | None => Raise (UnboundLocalError name)
  end.

(** Reading a name that is no local of the function. *)
Definition load_global (name : string) : result string :=
  match module_globals !! name with
  | Some v => Ok v
  | None => Raise (NameError name)
  end.

(** What [from_url] takes from outside the module: parsing a URL string
    into a [furl], the [in] operator on a [furl], and the remote URL of the
    repository at a path ([Git(url).remote.url]). *)
Class UrlLib : Type := {
  furl_of_string : string -> result furl.t;
  furl_contains : string -> furl.t -> result bool;
  git_remote_url : option pathlib.Path -> result string
}.

(** ** [class OwnerRepo] *)

Module OwnerRepo.

Record t : Type := mk { owner : string; repo : string }.

Definition post_init (self : t) : result unit :=
  if negb (truthy (owner self)) || negb (truthy (repo self)) then
    Raise (ValueError ("Invalid GitHub URL: " +:+ owner self +:+ "/" +:+ repo self))
  else Ok tt.

(** [OwnerRepo(owner, repo)]: the generated [__init__], then [__post_init__]. *)
Definition new (owner repo : string) : result t :=
  let self := mk owner repo in
  _ ← post_init self; Ok self.

(** The same call with an [owner] that may be [None]. *)
Definition new_opt (owner : option string) (repo : string) : result t :=
  match owner with
  | Some o => new o repo
  | None => Raise (ValueError ("Invalid GitHub URL: None/" +:+ repo))
  end.

Inductive url_arg : Type :=
  | UrlStr (s : string)
  | UrlFurl (u : furl.t)
  | UrlParseResult (geturl : string)
  | UrlPath (p : option pathlib.Path).

(** [from_url(url)]: the local [owner] is assigned in one branch only and
    [repo] in none. *)
Definition from_url `{UrlLib} (url : url_arg) : result t :=
  s ← match url with
      | UrlStr s => Ok s
      | UrlFurl u => Ok (furl.tostr u)
      | UrlParseResult g => Ok g
      | UrlPath p => git_remote_url p
      end;
  url ← furl_of_string s;
  has_at ← furl_contains "@" url;
  let owner : option (option string) :=
    if has_at : bool then Some (furl.username url) else None in
  (* cls(owner=owner, repo=repo): the arguments are read left to right *)
  owner ← load_fast "owner" owner;
  repo ← load_global "repo";
  new_opt owner repo.

(** [from_path(path)] *)
Definition from_path (path : pathlib.Path) : result t :=
  new (pathlib.name (pathlib.parent path)) (pathlib.name path).

(** [self.url(scheme)]; [cwd] is the working directory that
    [Path.absolute] would consult. *)
Definition url (cwd : string) (self : t) (scheme : GitScheme) : result furl.t :=
  let scheme := scheme_str scheme in
  let args := furl.mkKwargs (Some scheme) (Some GITHUB_DOMAIN)
                            (Some [owner self; repo self]) None in
  args ←
    (if String.eqb scheme "git+file" then
       if negb (startswith (repo self) "/") then
         Raise (ValueError ("Repo must be an absolute file for '" +:+ scheme
                            +:+ "': " +:+ repo self))
       else
         p ← pathlib.with_suffix
               (pathlib.absolute cwd (pathlib.parse (repo self))) ".git";
         Ok (furl.mkKwargs (furl.kw_scheme args) None
                           (Some [pathlib.str p]) (furl.kw_username args))
     else if contains "ssh" scheme then
       Ok (furl.mkKwargs (furl.kw_scheme args) (furl.kw_host args)
                         (furl.kw_path args) (Some "git"))
     else Ok args);
  Ok (furl.new args).

End OwnerRepo.

(** ** Effects: a state and exception monad

    [St S A] threads a state [S] (the outside world and a log of what was
    asked of it) through computations that may raise.  A raise keeps the
    state reached so far. *)

Definition St (S A : Type) : Type := S -> result A * S.

Global Instance St_ret {S} : MRet (St S) := fun A a s => (Ok a, s).
Global Instance St_bind {S} : MBind (St S) := fun A B f m s =>
  match m s with
  | (Ok a, s') => f a s'
  | (Raise e, s') => (Raise e, s')
  end.

Definition raise {S A} (e : exn) : St S A := fun s => (Raise e, s).

(** A world [W] together with the log of events [E] it was asked for. *)
Record Logged (W E : Type) : Type := mkLogged { world : W; log : list E }.
Global Arguments mkLogged {W E} world log.
Global Arguments world {W E} l.
Global Arguments log {W E} l.

(** Performs [op] on the world and appends [ev] to the log. *)
Definition perform {W E A} (ev : E) (op : W -> result A * W) : St (Logged W E) A :=
  fun s => let '(r, w') := op (world s) in (r, mkLogged w' (log s ++ [ev])).

(** Reads the world without logging. *)
Definition observe {W E A} (f : W -> A) : St (Logged W E) A :=
  fun s => (Ok (f (world s)), s).

(** Reads the world for a result that may be an error. *)
Definition attempt {W E A} (f : W -> result A) : St (Logged W E) A :=
  fun s => (f (world s), s).

(** Performs [op] on the world, the log staying as it is. *)
Definition silent {W E A} (op : W -> result A * W) : St (Logged W E) A :=
  fun s => let '(r, w') := op (world s) in (r, mkLogged w' (log s)).

(** Appends [ev] to the log. *)
Definition record {W E} (ev : E) : St (Logged W E) unit :=
  fun s => (Ok tt, mkLogged (world s) (log s ++ [ev])).

(** ** [class EnvBuilder(venv.EnvBuilder)] *)

Module EnvBuilder.

(** [Union[Path, str]] *)
Inductive path_like : Type :=
  | PStr (s : string)
  | PPath (p : pathlib.Path).

Definition to_path (d : path_like) : pathlib.Path :=
  match d with
  | PStr s => pathlib.parse s
  | PPath p => p
  end.

(** Truthiness: a [str] is falsy when empty, a [Path] never is. *)
Definition path_truthy (d : option path_like) : bool :=
  match d with
  | Some (PStr s) => truthy s
  | Some (PPath _) => true
  | None => false
  end.

(** [a or b] on optional paths *)
Definition path_or (a b : option path_like) : option path_like :=
  if path_truthy a then a else b.

(** The context namespace returned by [ensure_directories]. *)
Record Context : Type := mkContext { ctx_env_dir : string; env_exec_cmd : string }.

(** The fields of the dataclass, and [orig_prompt], the attribute that the
    base class's [__init__] adds ([None] until it has run). *)
Record t : Type := mk {
  system_site_packages : bool;
  clear : bool;
  symlinks : bool;
  upgrade : bool;
  with_pip : bool;
  prompt : option string;
  upgrade_deps : bool;
  env_dir : option path_like;
  context : option Context;
  orig_prompt : option (option string)
}.

Definition set_env_dir (self : t) (d : option path_like) : t :=
  mk (system_site_packages self) (clear self) (symlinks self) (upgrade self)
     (with_pip self) (prompt self) (upgrade_deps self) d (context self)
     (orig_prompt self).

Definition set_context (self : t) (c : option Context) : t :=
  mk (system_site_packages self) (clear self) (symlinks self) (upgrade self)
     (with_pip self) (prompt self) (upgrade_deps self) (env_dir self) c
     (orig_prompt self).

Definition set_system_site_packages (self : t) (b : bool) : t :=
  mk b (clear self) (symlinks self) (upgrade self)
     (with_pip self) (prompt self) (upgrade_deps self) (env_dir self)
     (context self) (orig_prompt self).

(** What [venv.EnvBuilder.__init__] stores: the options as given, except
    that the prompt ["."] becomes the name of the working directory, the
    prompt as given being kept in [orig_prompt]. *)
Definition init_fields (cwd_name : string) (self : t) : t :=
  mk (system_site_packages self) (clear self) (symlinks self) (upgrade self)
     (with_pip self)
     (if bool_decide (prompt self = Some ".") then Some cwd_name else prompt self)
     (upgrade_deps self) (env_dir self) (context self) (Some (prompt self)).

(** [Path(d)] as the value of [env_dir]. *)
Definition target (d : path_like) : option path_like := Some (PPath (to_path d)).

(** The object after [self.env_dir = Path(self.env_dir)]. *)
Definition with_path (self : t) (d : path_like) : t := set_env_dir self (target d).

(** The dataclass defaults, with [env_dir] given. *)
Definition defaults (d : option path_like) : t :=
  mk false false true false true (Some ".") false d None None.

(** The file system and the standard library, as far as the wrapper and
    the base class [venv.EnvBuilder] use them.  [scandir w p] lists the
    directory [p] ([None] when [p] is no directory); [cwd_basename] is
    [os.path.basename(os.getcwd())] and [abspath] is [os.path.abspath].
    [base_ensure_directories] is the base class's [ensure_directories]; the
    other operations are the steps of the base class's [create] that the
    wrapper does not override. *)
Class Base (W : Type) : Type := {
  path_exists : W -> pathlib.Path -> bool;
  scandir : W -> pathlib.Path -> option (list string);
  cwd_basename : W -> string;
  abspath : W -> option path_like -> result string;
  base_ensure_directories : t -> option path_like -> W -> result Context * W;
  create_configuration : t -> Context -> W -> result unit * W;
  setup_python : t -> Context -> W -> result unit * W;
  setup_pip : t -> Context -> W -> result unit * W;
  setup_scripts : t -> Context -> W -> result unit * W;
  upgrade_dependencies : t -> Context -> W -> result unit * W;
  scandir_exists : forall w p, is_Some (scandir w p) -> path_exists w p = true;
  base_ensure_directories_keeps : forall self d w ctx w',
    path_exists w (to_path d) = true ->
    base_ensure_directories self (Some d) w = (Ok ctx, w') ->
    path_exists w' (to_path d) = true;
  abspath_truthy : forall w d a, abspath w d = Ok a -> truthy a = true
}.

(** Calls made on the base class through [super()]. *)
Inductive call : Type :=
  | SuperEnsureDirectories (d : option path_like)
  | SuperCreate (d : option path_like).

Definition is_create (c : call) : bool :=
  match c with SuperCreate _ => true | SuperEnsureDirectories _ => false end.

(** [ProjectPy()]: [ProjectBase] declares the init-only variable [data],
    which the generated [__init__] hands to [__post_init__]; the
    [__post_init__] of [ProjectPy] takes [self] alone, so the construction
    fails before the body of [__post_init__] runs. *)
Definition ProjectPy_construct {A} : result A :=
  Raise (TypeError
           "ProjectPy.__post_init__() takes 1 positional argument but 2 were given").

(** The call of [ensure_directories] that the base class's [create] makes
    on the object, with the absolute path it has computed. *)
Definition reentered (a : result string) : list call :=
  match a with
  | Ok a => [SuperEnsureDirectories (Some (PStr a))]
  | Raise _ => []
  end.

Section methods.
Context {W : Type} `{!Base W}.

(** [super().__init__(...)] *)
Definition base_init (self : t) : St (Logged W call) t :=
  cwd_name ← observe cwd_basename;
  mret (init_fields cwd_name self).

Definition ensure_directories (self : t) (d : option path_like)
  : St (Logged W call) (t * Context) :=
  let target := path_or d (env_dir self) in
  ctx ← perform (SuperEnsureDirectories target)
                (base_ensure_directories self target);
  mret (set_context self (Some ctx), ctx).

(** [post_setup(context)]: [ProjectPy().pip_install()], of which the
    construction already fails. *)
Definition post_setup (self : t) (context : option Context)
  : St (Logged W call) unit :=
  attempt (fun _ => ProjectPy_construct).

(** The base class's [create] after its call of [ensure_directories]. *)
Definition base_setup (self : t) (context : Context) : St (Logged W call) t :=
  let true_system_site_packages := system_site_packages self in
  let self := set_system_site_packages self false in
  _ ← silent (create_configuration self context);
  _ ← silent (setup_python self context);
  _ ← (if with_pip self then silent (setup_pip self context) else mret tt);
  _ ← (if negb (upgrade self) then
         _ ← silent (setup_scripts self context);
         post_setup self (Some context)
       else mret tt);
  self ← (if true_system_site_packages then
            let self := set_system_site_packages self true in
            _ ← silent (create_configuration self context); mret self
          else mret self);
  _ ← (if upgrade_deps self then silent (upgrade_dependencies self context)
       else mret tt);
  mret self.

(** [venv.EnvBuilder.create(self, env_dir)]: its calls of
    [ensure_directories] and [post_setup] go to the methods of the wrapper. *)
Definition base_create (self : t) (d : option path_like) : St (Logged W call) t :=
  env_dir ← attempt (fun w => abspath w d);
  '(self, context) ← ensure_directories self (Some (PStr env_dir));
  base_setup self context.

Definition create (self : t) (d : option path_like) : St (Logged W call) t :=
  let self :=
    if path_truthy d && bool_decide (env_dir self = None)
    then set_env_dir self d else self in
  _ ← record (SuperCreate (env_dir self));
  base_create self (env_dir self).

Definition post_init (self : t) : St (Logged W call) t :=
  self ← base_init self;
  if path_truthy (env_dir self) then
    let p := to_path (default (PStr "") (env_dir self)) in
    let self := set_env_dir self (Some (PPath p)) in
    ex ← observe (fun w => path_exists w p);
    if ex : bool then
      '(self, _) ← ensure_directories self None; mret self
    else create self (env_dir self)
  else mret self.

End methods.

(** [EnvBuilder(env_dir=d)] *)
Definition new {W} `{!Base W} (self : t) : St (Logged W call) t := post_init self.

(** Provisioning twice in a row with the same arguments. *)
Definition new_twice {W} `{!Base W} (self : t) : St (Logged W call) t :=
  _ ← new self; new self.

End EnvBuilder.

(** ** [venv.CORE_VENV_DEPS] *)

Definition CORE_VENV_DEPS : list string :=
  ["build"; "darling"; "icecream"; "ipython"; "pip"; "pip-tools"; "pytest";
   "pytest-asyncio"; "rich"; "setuptools"; "setuptools_scm"; "tox"; "wheel"].

(** [sorted] on strings.  The order on [str] is total, so the result does
    not depend on the sorting algorithm nor on the iteration order of a set
    that is being sorted. *)
Definition sorted (l : list string) : list string := merge_sort String.le l.

(** ** [class ProjectPy(ProjectBase)] *)

Module ProjectPy.

(** The [options] table of a parsed [setup.cfg]; an absent key is [None]. *)
Record Options : Type := mkOptions {
  opt_extras_require : option (gmap string (list string));
  opt_install_requires : option (list string);
  opt_packages : option (list string)
}.

(** The parsed [setup.cfg]: [metadata.name] and the [options] table. *)
Record Config : Type := mkConfig {
  metadata_name : option string;
  options : option Options
}.

Record t : Type := mk {
  extras_require : list string;
  install_requires : list string;
  pypi_name : option string;
  py_packages : list string;
  python_exe_site : option string;
  python_exe_venv : option string;
  requirements : list string
}.

Definition pip_install_options : list string :=
  ["-m"; "pip"; "install"; "--quiet"; "--no-warn-script-location"].
Definition pip_upgrade_options : list string :=
  pip_install_options ++ ["--upgrade"].

(** [{dep for extra in extras.values() for dep in extra}] *)
Definition extras_set (extras : gmap string (list string)) : gset string :=
  list_to_set (mjoin ((map_to_list extras).*2)).

(** The part of [__post_init__] that reads the parsed [setup.cfg]. *)
Definition post_init_setup_cfg (config : Config) (self : t) : t :=
  let options := default (mkOptions None None None) (options config) in
  let extras_require :=
    sorted (elements (extras_set (default ∅ (opt_extras_require options)))) in
  let install_requires := default [] (opt_install_requires options) in
  let py_packages := default [] (opt_packages options) in
  let requirements :=
    sorted (install_requires ++ extras_require ++ CORE_VENV_DEPS) in
  mk extras_require install_requires (metadata_name config) py_packages
     (python_exe_site self) (python_exe_venv self) requirements.

(** Spawning a program and waiting for its exit status. *)
Class Subprocess (W : Type) : Type := {
  spawn : list string -> W -> Z * W
}.

Section pip.
Context {W : Type} `{!Subprocess W}.

(** [subprocess.check_call(cmd)]; the log holds the commands spawned. *)
Definition check_call (cmd : list (option string)) : St (Logged W (list string)) unit :=
  match mapM id cmd with
  | None => raise (TypeError "expected str, bytes or os.PathLike object, not NoneType")
  | Some argv =>
      retcode ← perform argv (fun w => let '(rc, w') := spawn argv w in (Ok rc, w'));
      if (retcode : Z) =? 0 then mret tt
      else raise (CalledProcessError retcode argv)
  end.

Definition pip_install (self : t) (args : list string) (site upgrade : bool)
  : St (Logged W (list string)) unit :=
  let executable := if site then python_exe_site self else python_exe_venv self in
  _ ← check_call (executable :: (Some <$> pip_upgrade_options ++ ["pip"; "wheel"]));
  check_call (executable
              :: (Some <$> (if upgrade then pip_upgrade_options else pip_install_options)
                           ++ (if bool_decide (args <> []) then args else requirements self))).

End pip.

End ProjectPy.

(** ** Worlds to run the effectful methods on *)

(** A small file system: each existing directory, named by the string of
    its path, with its entries. *)
Abbreviation dirs := (gmap string (list string)).

Definition dirs_ensure (self : EnvBuilder.t) (d : option EnvBuilder.path_like)
    (w : dirs) : result EnvBuilder.Context * dirs :=
  match d with
  | None => (Raise (TypeError "expected str, bytes or os.PathLike object, not NoneType"), w)
  | Some d =>
      let k := pathlib.str (EnvBuilder.to_path d) in
      let kept := if EnvBuilder.clear self then [] else default [] (w !! k) in
      (Ok (EnvBuilder.mkContext k (k +:+ "/bin/python")),
       <[k := list_union kept ["bin"; "include"; "lib"]]> w)
  end.

Definition dirs_configure (self : EnvBuilder.t) (ctx : EnvBuilder.Context)
    (w : dirs) : result unit * dirs :=
  let k := EnvBuilder.ctx_env_dir ctx in
  (Ok tt, <[k := list_union (default [] (w !! k)) ["pyvenv.cfg"]]> w).

Definition dirs_abspath (w : dirs) (d : option EnvBuilder.path_like) : result string :=
  match d with
  | Some d => Ok (pathlib.str (EnvBuilder.to_path d))
  | None => Raise (TypeError "expected str, bytes or os.PathLike object, not NoneType")
  end.

Global Program Instance dirs_base : EnvBuilder.Base dirs := {|
  EnvBuilder.path_exists w p := bool_decide (is_Some (w !! pathlib.str p));
  EnvBuilder.scandir w p := w !! pathlib.str p;
  EnvBuilder.cwd_basename _ := "repo";
  EnvBuilder.abspath := dirs_abspath;
  EnvBuilder.base_ensure_directories := dirs_ensure;
  EnvBuilder.create_configuration := dirs_configure;
  EnvBuilder.setup_python _ _ w := (Ok tt, w);
  EnvBuilder.setup_pip _ _ w := (Ok tt, w);
  EnvBuilder.setup_scripts _ _ w := (Ok tt, w);
  EnvBuilder.upgrade_dependencies _ _ w := (Ok tt, w)
|}.
Next Obligation. intros w p H. by apply bool_decide_eq_true. Qed.
Next Obligation.
  intros self d w ctx w' _ H. unfold dirs_ensure in H. simplify_eq.
  apply bool_decide_eq_true. by rewrite lookup_insert_eq.
Qed.
Next Obligation.
  intros w [d|] a H; [|discriminate]. injection H as <-.
  unfold pathlib.str. by destruct (truthy (_ +:+ _)) eqn:E.
Qed.

(** Programs whose exit statuses are scripted in advance; past the end of
    the script every program exits with 0. *)
Global Instance scripted : ProjectPy.Subprocess (list Z) := {|
  ProjectPy.spawn _ w := match w with rc :: w' => (rc, w') | [] => (0, []) end
|}.

(** ** Values the statements below are about *)

(** The path [with_suffix(".git")] yields when the name is not empty. *)
Definition dot_git (p : pathlib.Path) : pathlib.Path :=
  pathlib.mkPath (pathlib.root p)
    (removelast (pathlib.parts p)
     ++ [pathlib.replace_suffix (pathlib.name p) (pathlib.suffix p) ".git"]).

(** The [furl] that [url] builds from a local path. *)
Definition file_furl (p : pathlib.Path) : furl.t :=
  furl.mk (Some "git+file") None None [pathlib.str p] false.

(** A project whose environment already holds two entries. *)
Definition venv_dir : EnvBuilder.path_like := EnvBuilder.PStr "/repo/venv".
Definition venv_world : dirs := {[ "/repo/venv" := ["bin"; "pyvenv.cfg"] ]}.

(** The two commands [pip_install] composes for the interpreter [exe]. *)
Definition upgrade_pip_cmd (exe : string) : list string :=
  exe :: ProjectPy.pip_upgrade_options ++ ["pip"; "wheel"].
Definition install_cmd (self : ProjectPy.t) (args : list string) (upgrade : bool)
    (exe : string) : list string :=
  exe :: (if upgrade then ProjectPy.pip_upgrade_options
          else ProjectPy.pip_install_options)
      ++ (if bool_decide (args <> []) then args else ProjectPy.requirements self).

(** A [ProjectPy] before its [setup.cfg] is read, with both interpreters. *)
Definition fresh_project : ProjectPy.t :=
  ProjectPy.mk [] [] None [] (Some "/usr/bin/python3")
               (Some "/repo/venv/bin/python") [].

(** [c in s] for a character. *)
Fixpoint has_char (c : ascii) (s : string) : bool :=
  match s with
  | EmptyString => false
  | String a s' => Ascii.eqb a c || has_char c s'
  end.

(** A component as [Path] keeps it: not empty, not a dot, free of slashes. *)
Definition wf_part (x : string) : Prop :=
  x <> "" /\ x <> "." /\ has_char "/" x = false.

(** A path as [Path] builds it from a string. *)
Definition wf_path (p : pathlib.Path) : Prop :=
  (pathlib.root p = "" \/ pathlib.root p = "/" \/ pathlib.root p = "//")
  /\ Forall wf_part (pathlib.parts p).

(** A computation that leaves the log as it is. *)
Definition quiet {W E A} (m : St (Logged W E) A) : Prop :=
  forall s, log (m s).2 = log s.

(** A directory that does not exist in [venv_world]. *)
Definition other_dir : EnvBuilder.path_like := EnvBuilder.PStr "/repo/other".

(** A project that has an interpreter of the site, and no environment yet. *)
Definition unprovisioned_project : ProjectPy.t :=
  ProjectPy.mk [] [] None [] (Some "/usr/bin/python3") None [].

(** * Properties *)

(** ** Strings and paths *)

Lemma truthy_true (s : string) : truthy s = true <-> s <> "".
Proof. unfold truthy. destruct (String.eqb_spec s ""); split; naive_solver. Qed.

Lemma truthy_false (s : string) : truthy s = false <-> s = "".
Proof. unfold truthy. destruct (String.eqb_spec s ""); split; naive_solver. Qed.

Lemma startswith_empty (s : string) : startswith s "" = true.
Proof. by destruct s. Qed.

Lemma last_snoc2 (pre : list string) (a b d : string) :
  List.last (pre ++ [a; b]) d = b.
Proof.
  replace (pre ++ [a; b]) with ((pre ++ [a]) ++ [b]) by by rewrite <- app_assoc.
  apply last_last.
Qed.

Lemma removelast_snoc2 (pre : list string) (a b : string) :
  removelast (pre ++ [a; b]) = pre ++ [a].
Proof.
  replace (pre ++ [a; b]) with ((pre ++ [a]) ++ [b]) by by rewrite <- app_assoc.
  apply removelast_last.
Qed.

Lemma name_snoc2 rt pre a b : pathlib.name (pathlib.mkPath rt (pre ++ [a; b])) = b.
Proof. apply last_snoc2. Qed.

Lemma parent_name_snoc2 rt pre a b :
  pathlib.name (pathlib.parent (pathlib.mkPath rt (pre ++ [a; b]))) = a.
Proof.
  unfold pathlib.name, pathlib.parent; simpl.
  by rewrite removelast_snoc2, last_last.
Qed.

Lemma parent_name_short (p : pathlib.Path) :
  (length (pathlib.parts p) <= 1)%nat -> pathlib.name (pathlib.parent p) = "".
Proof.
  destruct p as [rt [|x [|y l]]]; simpl; intros; try done; lia.
Qed.

(** ** [OwnerRepo.__post_init__] *)

Lemma new_ok (o r : string) :
  o <> "" -> r <> "" -> OwnerRepo.new o r = Ok (OwnerRepo.mk o r).
Proof.
  intros Ho Hr. unfold OwnerRepo.new, OwnerRepo.post_init; simpl.
  apply truthy_true in Ho, Hr. by rewrite Ho, Hr.
Qed.

Lemma new_raise (o r : string) :
  o = "" \/ r = "" ->
  OwnerRepo.new o r = Raise (ValueError ("Invalid GitHub URL: " +:+ o +:+ "/" +:+ r)).
Proof.
  intros H. unfold OwnerRepo.new, OwnerRepo.post_init; simpl.
  destruct H as [H|H]; apply truthy_false in H; rewrite H; simpl; [done|].
  by rewrite orb_true_r.
Qed.

(** C6: constructing an [OwnerRepo] raises exactly when the owner or the
    repo is empty, the error is a [ValueError], and with both non-empty the
    construction yields the record with these two fields. *)
Theorem OwnerRepo_new_raises_iff_empty (o r : string) :
  (raises (OwnerRepo.new o r) <-> o = "" \/ r = "") /\
  (forall e, OwnerRepo.new o r = Raise e -> is_ValueError e = true) /\
  (o <> "" /\ r <> "" -> OwnerRepo.new o r = Ok (OwnerRepo.mk o r)).
Proof.
  assert (Hcases : (o = "" \/ r = "") \/ (o <> "" /\ r <> "")).
  { destruct (decide (o = "")), (decide (r = "")); auto. }
  destruct Hcases as [He|[Ho Hr]].
  - rewrite (new_raise o r He). split; [|split].
    + split; [auto|]. intros _. by eexists.
    + by intros e [= <-].
    + intros [Ho Hr]. destruct He; contradiction.
  - rewrite (new_ok o r Ho Hr). split; [|split].
    + split; [intros [e He]; discriminate|]. intros [?|?]; contradiction.
    + intros e He. discriminate.
    + done.
Qed.

(** ** [OwnerRepo.from_path] *)

(** C10: [from_path] takes the owner from the parent directory's name and
    the repo from the final component when both are non-empty, which is
    the case of a path ending in two components [a/b]; when either name is
    empty, as for a path of at most one component, it raises [ValueError]. *)
Theorem from_path_owner_repo (p : pathlib.Path) :
  (pathlib.name (pathlib.parent p) <> "" /\ pathlib.name p <> "" ->
   OwnerRepo.from_path p
   = Ok (OwnerRepo.mk (pathlib.name (pathlib.parent p)) (pathlib.name p))) /\
  (pathlib.name (pathlib.parent p) = "" \/ pathlib.name p = "" ->
   exists msg, OwnerRepo.from_path p = Raise (ValueError msg)) /\
  (forall pre a b, pathlib.parts p = pre ++ [a; b] -> a <> "" -> b <> "" ->
   OwnerRepo.from_path p = Ok (OwnerRepo.mk a b)) /\
  ((length (pathlib.parts p) <= 1)%nat ->
   exists msg, OwnerRepo.from_path p = Raise (ValueError msg)).
Proof.
  unfold OwnerRepo.from_path. repeat split.
  - intros [Ho Hr]. by apply new_ok.
  - intros H. eexists. by apply new_raise.
  - intros pre a b Hp Ha Hb. destruct p as [rt ps]; simpl in Hp; subst ps.
    rewrite name_snoc2, parent_name_snoc2. by apply new_ok.
  - intros Hlen. eexists. apply new_raise. left. by apply parent_name_short.
Qed.

(** ** [OwnerRepo.url] *)

Lemma startswith_slash_absolute (s : string) :
  startswith s "/" = true -> pathlib.is_absolute (pathlib.parse s) = true.
Proof.
  intros H. unfold pathlib.parse, pathlib.splitroot. rewrite H.
  by destruct (_ =? 2)%nat.
Qed.

Lemma absolute_of_absolute (cwd s : string) :
  startswith s "/" = true ->
  pathlib.absolute cwd (pathlib.parse s) = pathlib.parse s.
Proof.
  intros H. unfold pathlib.absolute. by rewrite startswith_slash_absolute.
Qed.

Lemma str_truthy (p : pathlib.Path) : truthy (pathlib.str p) = true.
Proof. unfold pathlib.str. by destruct (truthy (_ +:+ _)) eqn:E. Qed.

Lemma with_suffix_git (p : pathlib.Path) :
  pathlib.with_suffix p ".git"
  = if truthy (pathlib.name p) then Ok (dot_git p)
    else Raise (ValueError ("PosixPath('" +:+ pathlib.str p +:+ "') has an empty name")).
Proof. unfold pathlib.with_suffix; simpl. by destruct (truthy (pathlib.name p)). Qed.

(** The three outcomes of [url("git+file")]. *)
Lemma url_git_file (cwd : string) (self : OwnerRepo.t) :
  OwnerRepo.url cwd self git_file
  = if negb (startswith (OwnerRepo.repo self) "/") then
      Raise (ValueError ("Repo must be an absolute file for 'git+file': "
                         +:+ OwnerRepo.repo self))
    else if truthy (pathlib.name (pathlib.parse (OwnerRepo.repo self))) then
      Ok (file_furl (dot_git (pathlib.parse (OwnerRepo.repo self))))
    else
      Raise (ValueError ("PosixPath('"
                         +:+ pathlib.str (pathlib.parse (OwnerRepo.repo self))
                         +:+ "') has an empty name")).
Proof.
  unfold OwnerRepo.url; simpl.
  destruct (startswith (OwnerRepo.repo self) "/") eqn:Hs; simpl; [|done].
  rewrite absolute_of_absolute by done. rewrite with_suffix_git.
  destruct (truthy (pathlib.name _)); simpl; [|done].
  unfold furl.new, furl.load_path; simpl.
  pose proof (str_truthy (dot_git (pathlib.parse (OwnerRepo.repo self)))) as Ht.
  unfold truthy in Ht. apply negb_true_iff in Ht. by rewrite Ht.
Qed.

Lemma url_other (cwd : string) (self : OwnerRepo.t) (s : GitScheme) :
  s <> git_file ->
  OwnerRepo.url cwd self s
  = Ok (furl.new (furl.mkKwargs (Some (scheme_str s)) (Some GITHUB_DOMAIN)
                    (Some [OwnerRepo.owner self; OwnerRepo.repo self])
                    (if contains "ssh" (scheme_str s) then Some "git" else None))).
Proof. by destruct s. Qed.

Lemma url_ssh (cwd o r : string) :
  o <> "" ->
  OwnerRepo.url cwd (OwnerRepo.mk o r) ssh
  = Ok (furl.mk (Some "ssh") (Some "git") (Some "github.com") [o; r] false).
Proof.
  intros Ho. rewrite url_other by done. unfold furl.new, furl.load_path; simpl.
  apply truthy_true in Ho. unfold truthy in Ho. apply negb_true_iff in Ho.
  by rewrite Ho.
Qed.

(** What a [furl] with the SSH components renders to: the scheme form
    [ssh://git@github.com/owner/repo], whatever the owner and the repo. *)
Lemma tostr_ssh (o r : string) :
  furl.tostr (furl.mk (Some "ssh") (Some "git") (Some "github.com") [o; r] false)
  = "ssh://git@github.com/" +:+ furl.quote furl.SAFE_SEGMENT_CHARS o
    +:+ "/" +:+ furl.quote furl.SAFE_SEGMENT_CHARS r.
Proof.
  unfold furl.tostr, furl.urlunsplit, furl.path_str, furl.isabsolute, furl.netloc.
  simpl. by rewrite startswith_empty.
Qed.

(** C1: for the owner/repo pair cpython/cpython the SSH scheme gives a
    [furl] with scheme [ssh], user [git], host [github.com] and the path
    segments [cpython], [cpython]; it renders to
    [ssh://git@github.com/cpython/cpython], which is not the host-colon
    form [git@github.com:cpython/cpython.git] of the docstring. *)
Theorem url_ssh_cpython :
  furl.tostr <$> OwnerRepo.url "/" (OwnerRepo.mk "cpython" "cpython") ssh
  = Ok "ssh://git@github.com/cpython/cpython" /\
  furl.tostr <$> OwnerRepo.url "/" (OwnerRepo.mk "cpython" "cpython") ssh
  <> Ok "git@github.com:cpython/cpython.git" /\
  GITHUB_URL !! "ssh" = Some "git@github.com:".
Proof.
  rewrite url_ssh by done. unfold fmap, result_fmap. rewrite tostr_ssh.
  split; [reflexivity|]. split; [discriminate|]. by vm_compute.
Qed.

(** *** The path handed to [furl] under the file scheme *)

Lemma string_app_assoc (a b c : string) : (a +:+ b) +:+ c = a +:+ (b +:+ c).
Proof.
  induction a as [|x a IH]; [done|].
  change (String x ((a +:+ b) +:+ c) = String x (a +:+ (b +:+ c))). by rewrite IH.
Qed.

Lemma string_app_empty (a b : string) : a +:+ b = "" -> a = "" /\ b = "".
Proof. destruct a; [done|]. intros H. discriminate H. Qed.

Lemma concat_empty_last (sep : string) (l : list string) :
  String.concat sep l = "" -> List.last l "" = "".
Proof.
  induction l as [|x [|y l] IH]; [done..|].
  intros H. change (x +:+ sep +:+ String.concat sep (y :: l) = "") in H.
  apply string_app_empty in H as [_ H]. apply string_app_empty in H as [_ H].
  by apply IH.
Qed.

Lemma concat_cons (sep x : string) (r : list string) :
  r <> [] -> String.concat sep (x :: r) = x +:+ sep +:+ String.concat sep r.
Proof. by destruct r. Qed.

Lemma concat_snoc_last (sep sfx : string) (l : list string) :
  l <> [] ->
  String.concat sep (removelast l ++ [List.last l "" +:+ sfx])
  = String.concat sep l +:+ sfx.
Proof.
  induction l as [|x l IH]; [done|]. intros _.
  destruct l as [|y l]; [done|].
  change (removelast (x :: y :: l)) with (x :: removelast (y :: l)).
  change (List.last (x :: y :: l) "") with (List.last (y :: l) "").
  rewrite <- app_comm_cons.
  rewrite (concat_cons sep x (y :: l)) by done.
  rewrite (concat_cons sep x (removelast (y :: l) ++ _))
    by by destruct (removelast (y :: l)).
  rewrite IH by done. by rewrite !string_app_assoc.
Qed.

Lemma name_parts_nonempty (p : pathlib.Path) :
  pathlib.name p <> "" -> pathlib.parts p <> [].
Proof. destruct p as [rt [|x l]]; [by intros H|done]. Qed.

(** Without an old suffix, [with_suffix] appends to the string of the path. *)
Lemma str_dot_git (p : pathlib.Path) :
  pathlib.name p <> "" -> pathlib.suffix p = "" ->
  pathlib.str (dot_git p) = pathlib.str p +:+ ".git".
Proof.
  intros Hn Hs. pose proof (name_parts_nonempty p Hn) as Hp.
  unfold pathlib.str, dot_git; simpl. rewrite Hs.
  unfold pathlib.replace_suffix; simpl. unfold pathlib.name.
  rewrite concat_snoc_last by done. rewrite <- string_app_assoc.
  set (s := pathlib.root p +:+ String.concat "/" (pathlib.parts p)).
  assert (Ht : truthy s = true).
  { apply truthy_true. intros E. apply string_app_empty in E as [_ E].
    by apply concat_empty_last in E. }
  rewrite Ht. assert (Ht' : truthy (s +:+ ".git") = true).
  { apply truthy_true. intros E. by apply string_app_empty in E as [_ E]. }
  by rewrite Ht'.
Qed.

(** For the repo [/tmp/my.repo] the scheme of the URL is [git+file], and the
    suffix [.repo] is replaced, not extended. *)
Lemma url_git_file_my_repo :
  startswith "/tmp/my.repo" "/" = true /\
  furl.scheme <$> OwnerRepo.url "/" (OwnerRepo.mk "j5pu" "/tmp/my.repo") git_file
  = Ok (Some "git+file") /\
  furl.segments <$> OwnerRepo.url "/" (OwnerRepo.mk "j5pu" "/tmp/my.repo") git_file
  = Ok ["/tmp/my.git"] /\
  furl.tostr <$> OwnerRepo.url "/" (OwnerRepo.mk "j5pu" "/tmp/my.repo") git_file
  <> Ok ("file://" +:+ "/tmp/my.repo" +:+ ".git").
Proof. repeat split; [intros H; vm_compute in H; discriminate H]. Qed.

(** What [url] hands to [furl] under the file scheme, for a repo that
    starts with a slash and has a final component: the scheme [git+file],
    no host, no user, and one path entry, the string of
    [Path(repo).with_suffix(".git")]. *)
Lemma url_git_file_components (cwd : string) (self : OwnerRepo.t) :
  startswith (OwnerRepo.repo self) "/" = true ->
  pathlib.name (pathlib.parse (OwnerRepo.repo self)) <> "" ->
  exists u p,
    pathlib.with_suffix (pathlib.parse (OwnerRepo.repo self)) ".git" = Ok p /\
    OwnerRepo.url cwd self git_file = Ok u /\
    furl.scheme u = Some "git+file" /\
    furl.host u = None /\
    furl.username u = None /\
    furl.segments u = [pathlib.str p] /\
    pathlib.root p = pathlib.root (pathlib.parse (OwnerRepo.repo self)) /\
    pathlib.parts p
    = removelast (pathlib.parts (pathlib.parse (OwnerRepo.repo self)))
      ++ [pathlib.replace_suffix
            (pathlib.name (pathlib.parse (OwnerRepo.repo self)))
            (pathlib.suffix (pathlib.parse (OwnerRepo.repo self))) ".git"] /\
    (pathlib.suffix (pathlib.parse (OwnerRepo.repo self)) = "" ->
     pathlib.str (pathlib.parse (OwnerRepo.repo self)) = OwnerRepo.repo self ->
     pathlib.str p = OwnerRepo.repo self +:+ ".git").
Proof.
  intros Hs Hn. exists (file_furl (dot_git (pathlib.parse (OwnerRepo.repo self)))).
  exists (dot_git (pathlib.parse (OwnerRepo.repo self))).
  pose proof Hn as Ht. apply truthy_true in Ht.
  rewrite with_suffix_git, url_git_file, Hs, Ht. simpl.
  repeat split. intros Hsfx Hstr. rewrite str_dot_git by done. by rewrite Hstr.
Qed.

(** *** When [url] raises *)

(** C7 as stated fails: the repo [/] starts with a slash, and
    [url("git+file")] raises a [ValueError] all the same, from
    [with_suffix], the root path having no name. *)
Lemma url_git_file_root_raises :
  startswith "/" "/" = true /\
  OwnerRepo.url "/" (OwnerRepo.mk "j5pu" "/") git_file
  = Raise (ValueError "PosixPath('/') has an empty name") /\
  ~ ((exists msg, OwnerRepo.url "/" (OwnerRepo.mk "j5pu" "/") git_file
                  = Raise (ValueError msg))
     <-> startswith "/" "/" = false).
Proof.
  split; [done|]. split; [done|]. intros [H _].
  assert (Hf : startswith "/" "/" = false) by (apply H; by eexists).
  discriminate Hf.
Qed.

(** C7, amended: [url("git+file")] raises exactly when the repo does not
    start with a slash or its path has no final component (the root); what
    it raises is a [ValueError]; for the other four schemes it does not
    raise. *)
Theorem url_raises_iff (cwd : string) (self : OwnerRepo.t) :
  (raises (OwnerRepo.url cwd self git_file)
   <-> startswith (OwnerRepo.repo self) "/" = false
       \/ pathlib.name (pathlib.parse (OwnerRepo.repo self)) = "") /\
  (forall e, OwnerRepo.url cwd self git_file = Raise e -> is_ValueError e = true) /\
  (forall s, s <> git_file -> exists u, OwnerRepo.url cwd self s = Ok u).
Proof.
  split; [|split].
  - rewrite url_git_file.
    destruct (startswith (OwnerRepo.repo self) "/"); simpl.
    + destruct (truthy _) eqn:Ht.
      * apply truthy_true in Ht. split; [intros [e He]; discriminate|].
        intros [?|?]; [discriminate|contradiction].
      * apply truthy_false in Ht. split; [auto|]. intros _. by eexists.
    + split; [auto|]. intros _. by eexists.
  - intros e. rewrite url_git_file.
    destruct (startswith (OwnerRepo.repo self) "/"); simpl.
    + destruct (truthy _); [discriminate|]. by intros [= <-].
    + by intros [= <-].
  - intros s Hs. rewrite url_other by done. by eexists.
Qed.

(** *** Determinism *)

(** C8: for each of the five schemes the result of [url], a [furl] or an
    error, is a function of the owner/repo pair and the scheme alone: the
    working directory of the process, the one piece of outside state the
    code could read (through [Path.absolute]), has no influence on it. *)
Theorem url_deterministic (cwd1 cwd2 : string) (self : OwnerRepo.t) (s : GitScheme) :
  OwnerRepo.url cwd1 self s = OwnerRepo.url cwd2 self s.
Proof.
  destruct s; [by rewrite !url_git_file|..]; by rewrite !url_other.
Qed.

(** ** [OwnerRepo.from_url] *)

Lemma load_global_repo : load_global "repo" = Raise (NameError "repo").
Proof. by vm_compute. Qed.

(** C3: whatever the URL and whatever the [furl] library answers,
    [from_url] returns no [OwnerRepo]: it raises.  Once the URL is parsed
    and the membership test answered, the error is the one of reading a
    name that was never bound: [repo] when the test holds, [owner]
    otherwise. *)
Theorem from_url_always_raises `{UrlLib} (a : OwnerRepo.url_arg) :
  raises (OwnerRepo.from_url a) /\
  (forall r, OwnerRepo.from_url a <> Ok r) /\
  (forall s u b, a = OwnerRepo.UrlStr s ->
     furl_of_string s = Ok u -> furl_contains "@" u = Ok b ->
     OwnerRepo.from_url a
     = Raise (if b : bool then NameError "repo" else UnboundLocalError "owner")).
Proof.
  assert (Hr : raises (OwnerRepo.from_url a)).
  { unfold OwnerRepo.from_url, raises.
    destruct a as [s|u|g|p]; simpl;
      try destruct (git_remote_url p) as [s|e]; simpl; eauto;
      (destruct (furl_of_string _) as [u'|e]; simpl; eauto;
       destruct (furl_contains "@" u') as [[|]|e]; simpl; eauto;
       rewrite load_global_repo; simpl; eauto). }
  split; [done|]. split.
  - intros r Hok. destruct Hr as [e He]. congruence.
  - intros s u b -> Hu Hb. unfold OwnerRepo.from_url; simpl.
    rewrite Hu; simpl. rewrite Hb; simpl. destruct b; simpl; [|done].
    by rewrite load_global_repo.
Qed.

(** ** [EnvBuilder.__post_init__] *)

Section provisioning.
Context {W : Type} `{!EnvBuilder.Base W}.
Implicit Types (self : EnvBuilder.t) (d : EnvBuilder.path_like)
               (s : Logged W EnvBuilder.call).

Lemma post_init_existing self d s :
  EnvBuilder.env_dir self = Some d ->
  EnvBuilder.path_truthy (Some d) = true ->
  EnvBuilder.path_exists (world s) (EnvBuilder.to_path d) = true ->
  EnvBuilder.post_init self s
  = let '(r, w') :=
      EnvBuilder.base_ensure_directories
        (EnvBuilder.with_path
           (EnvBuilder.init_fields (EnvBuilder.cwd_basename (world s)) self) d)
        (EnvBuilder.target d) (world s) in
    (match r with
     | Ok ctx =>
         Ok (EnvBuilder.set_context
               (EnvBuilder.with_path
                  (EnvBuilder.init_fields (EnvBuilder.cwd_basename (world s)) self) d)
               (Some ctx))
     | Raise e => Raise e
     end,
     mkLogged w' (log s ++ [EnvBuilder.SuperEnsureDirectories (EnvBuilder.target d)])).
Proof.
  intros Hd Ht Hex.
  unfold EnvBuilder.post_init, EnvBuilder.base_init, mbind, St_bind, observe; simpl.
  rewrite Hd, Ht; simpl. rewrite Hex.
  unfold EnvBuilder.ensure_directories, mbind, St_bind, perform; simpl.
  by destruct (EnvBuilder.base_ensure_directories _ _ _) as [[ctx|e] w'].
Qed.

Lemma post_init_absent self d s :
  EnvBuilder.env_dir self = Some d ->
  EnvBuilder.path_truthy (Some d) = true ->
  EnvBuilder.path_exists (world s) (EnvBuilder.to_path d) = false ->
  EnvBuilder.post_init self s
  = EnvBuilder.create
      (EnvBuilder.with_path
         (EnvBuilder.init_fields (EnvBuilder.cwd_basename (world s)) self) d)
      (EnvBuilder.target d) s.
Proof.
  intros Hd Ht Hex.
  unfold EnvBuilder.post_init, EnvBuilder.base_init, mbind, St_bind, observe; simpl.
  rewrite Hd, Ht; simpl. by rewrite Hex.
Qed.

Lemma post_init_no_dir self s :
  EnvBuilder.path_truthy (EnvBuilder.env_dir self) = false ->
  EnvBuilder.post_init self s
  = (Ok (EnvBuilder.init_fields (EnvBuilder.cwd_basename (world s)) self), s).
Proof.
  intros Ht.
  unfold EnvBuilder.post_init, EnvBuilder.base_init, mbind, St_bind, observe; simpl.
  by rewrite Ht.
Qed.

(** [create] is reached only for a directory that does not exist. *)
Lemma create_only_when_absent self s c :
  c ∈ log (EnvBuilder.new self s).2 -> EnvBuilder.is_create c = true ->
  c ∈ log s \/
  exists d, EnvBuilder.env_dir self = Some d
            /\ EnvBuilder.path_exists (world s) (EnvBuilder.to_path d) = false.
Proof.
  unfold EnvBuilder.new. intros Hin Hc.
  destruct (EnvBuilder.path_truthy (EnvBuilder.env_dir self)) eqn:Ht.
  - destruct (EnvBuilder.env_dir self) as [d|] eqn:Hd; [|done].
    destruct (EnvBuilder.path_exists (world s) (EnvBuilder.to_path d)) eqn:Hex.
    + rewrite (post_init_existing self d s Hd Ht Hex) in Hin.
      destruct (EnvBuilder.base_ensure_directories _ _ _) as [r w']; simpl in Hin.
      apply elem_of_app in Hin as [Hin|Hin]; [by left|].
      apply list_elem_of_singleton in Hin. by subst c.
    + right. by exists d.
  - rewrite post_init_no_dir in Hin by done. by left.
Qed.

(** C4: provisioning against a directory that exists and is not empty
    calls [ensure_directories] on it and nothing else; doing it a second
    time calls [ensure_directories] again and still never [create]; and
    whatever the arguments, a call of [create] means that the directory did
    not exist. *)
Theorem provisioning_idempotent self d (w : W) (entries : list string) :
  EnvBuilder.env_dir self = Some d ->
  EnvBuilder.path_truthy (Some d) = true ->
  EnvBuilder.scandir w (EnvBuilder.to_path d) = Some entries ->
  entries <> [] ->
  log (EnvBuilder.new self (mkLogged w [])).2
  = [EnvBuilder.SuperEnsureDirectories (EnvBuilder.target d)] /\
  Forall (fun c => c = EnvBuilder.SuperEnsureDirectories (EnvBuilder.target d))
         (log (EnvBuilder.new_twice self (mkLogged w [])).2) /\
  (forall b, (EnvBuilder.new_twice self (mkLogged w [])).1 = Ok b ->
     log (EnvBuilder.new_twice self (mkLogged w [])).2
     = [EnvBuilder.SuperEnsureDirectories (EnvBuilder.target d);
        EnvBuilder.SuperEnsureDirectories (EnvBuilder.target d)]) /\
  (forall self' w' c,
     c ∈ log (EnvBuilder.new self' (mkLogged w' [])).2 ->
     EnvBuilder.is_create c = true ->
     exists d', EnvBuilder.env_dir self' = Some d'
                /\ EnvBuilder.path_exists w' (EnvBuilder.to_path d') = false).
Proof.
  intros Hd Ht Hscan _.
  assert (Hex : EnvBuilder.path_exists w (EnvBuilder.to_path d) = true).
  { apply EnvBuilder.scandir_exists. rewrite Hscan. by eexists. }
  assert (Hnew : forall s,
    EnvBuilder.path_exists (world s) (EnvBuilder.to_path d) = true ->
    log (EnvBuilder.new self s).2
    = log s ++ [EnvBuilder.SuperEnsureDirectories (EnvBuilder.target d)] /\
    forall b, (EnvBuilder.new self s).1 = Ok b ->
      EnvBuilder.path_exists (world (EnvBuilder.new self s).2)
                             (EnvBuilder.to_path d) = true).
  { intros s Hs. unfold EnvBuilder.new.
    rewrite (post_init_existing self d s Hd Ht Hs).
    destruct (EnvBuilder.base_ensure_directories _ _ _) as [[ctx|e] w'] eqn:Hb;
      simpl; split; try done.
    intros _ _.
    exact (EnvBuilder.base_ensure_directories_keeps
             _ (EnvBuilder.PPath (EnvBuilder.to_path d)) (world s) ctx w' Hs Hb). }
  destruct (Hnew (mkLogged w []) Hex) as [Hlog1 Hkeep1]. simpl in Hlog1.
  assert (Htwice :
    Forall (fun c => c = EnvBuilder.SuperEnsureDirectories (EnvBuilder.target d))
           (log (EnvBuilder.new_twice self (mkLogged w [])).2) /\
    (forall b, (EnvBuilder.new_twice self (mkLogged w [])).1 = Ok b ->
       log (EnvBuilder.new_twice self (mkLogged w [])).2
       = [EnvBuilder.SuperEnsureDirectories (EnvBuilder.target d);
          EnvBuilder.SuperEnsureDirectories (EnvBuilder.target d)])).
  { unfold EnvBuilder.new_twice, mbind, St_bind.
    destruct (EnvBuilder.new self (mkLogged w [])) as [[b1|e1] s1] eqn:E1;
      simpl in *.
    - destruct (Hnew s1 (Hkeep1 b1 eq_refl)) as [Hlog2 _].
      rewrite Hlog2, Hlog1. split; [|done]. by repeat constructor.
    - rewrite Hlog1. split; [by repeat constructor|]. intros b Hb. discriminate. }
  split; [done|]. split; [apply Htwice|]. split; [apply Htwice|].
  intros self' w' c Hin Hc.
  destruct (create_only_when_absent self' (mkLogged w' []) c Hin Hc) as [Hnil|Hd'].
  - simpl in Hnil. by apply elem_of_nil in Hnil.
  - done.
Qed.

End provisioning.

Lemma provisioning_idempotent_witness :
  log (EnvBuilder.new (EnvBuilder.defaults (Some venv_dir)) (mkLogged venv_world [])).2
  = [EnvBuilder.SuperEnsureDirectories (EnvBuilder.target venv_dir)] /\
  Forall (fun c => c = EnvBuilder.SuperEnsureDirectories (EnvBuilder.target venv_dir))
         (log (EnvBuilder.new_twice (EnvBuilder.defaults (Some venv_dir))
                                    (mkLogged venv_world [])).2) /\
  (forall b,
     (EnvBuilder.new_twice (EnvBuilder.defaults (Some venv_dir))
                           (mkLogged venv_world [])).1 = Ok b ->
     log (EnvBuilder.new_twice (EnvBuilder.defaults (Some venv_dir))
                               (mkLogged venv_world [])).2
     = [EnvBuilder.SuperEnsureDirectories (EnvBuilder.target venv_dir);
        EnvBuilder.SuperEnsureDirectories (EnvBuilder.target venv_dir)]) /\
  (forall self' (w' : dirs) c,
     c ∈ log (EnvBuilder.new self' (mkLogged w' [])).2 ->
     EnvBuilder.is_create c = true ->
     exists d', EnvBuilder.env_dir self' = Some d'
                /\ EnvBuilder.path_exists w' (EnvBuilder.to_path d') = false).
Proof.
  apply (provisioning_idempotent (EnvBuilder.defaults (Some venv_dir)) venv_dir
           venv_world ["bin"; "pyvenv.cfg"]).
  - reflexivity.
  - reflexivity.
  - vm_compute. reflexivity.
  - discriminate.
Defined.

(** ** [ProjectPy.__post_init__]: the requirements *)

Lemma sorted_Sorted (l : list string) : StronglySorted String.le (sorted l).
Proof. apply (StronglySorted_merge_sort String.le). Qed.

Lemma sorted_Permutation (l : list string) : sorted l ≡ₚ l.
Proof. apply (merge_sort_Permutation String.le). Qed.

Lemma elem_of_extras_set (extras : gmap string (list string)) (x : string) :
  x ∈ ProjectPy.extras_set extras
  <-> exists extra deps, extras !! extra = Some deps /\ x ∈ deps.
Proof.
  unfold ProjectPy.extras_set.
  rewrite elem_of_list_to_set, list_elem_of_join. split.
  - intros (deps & Hx & Hd). apply list_elem_of_fmap in Hd as ([k v] & -> & Hkv).
    apply elem_of_map_to_list in Hkv. by exists k, v.
  - intros (k & deps & Hk & Hx). exists deps. split; [done|].
    apply list_elem_of_fmap. exists (k, deps). split; [done|].
    by apply elem_of_map_to_list.
Qed.

(** C2 as stated fails: with [install_requires = ["pip"]] the combined
    tuple holds [pip] twice, once from the options and once from
    [CORE_VENV_DEPS]. *)
Lemma requirements_pip_twice :
  ProjectPy.requirements
    (ProjectPy.post_init_setup_cfg
       (ProjectPy.mkConfig None (Some (ProjectPy.mkOptions None (Some ["pip"]) None)))
       fresh_project)
  = ["build"; "darling"; "icecream"; "ipython"; "pip"; "pip"; "pip-tools";
     "pytest"; "pytest-asyncio"; "rich"; "setuptools"; "setuptools_scm"; "tox";
     "wheel"] /\
  ~ NoDup (ProjectPy.requirements
             (ProjectPy.post_init_setup_cfg
                (ProjectPy.mkConfig None
                   (Some (ProjectPy.mkOptions None (Some ["pip"]) None)))
                fresh_project)).
Proof.
  assert (E : ProjectPy.requirements
    (ProjectPy.post_init_setup_cfg
       (ProjectPy.mkConfig None (Some (ProjectPy.mkOptions None (Some ["pip"]) None)))
       fresh_project)
  = ["build"; "darling"; "icecream"; "ipython"; "pip"; "pip"; "pip-tools";
     "pytest"; "pytest-asyncio"; "rich"; "setuptools"; "setuptools_scm"; "tox";
     "wheel"]) by (by vm_compute).
  split; [exact E|]. rewrite E. intros H.
  do 4 (apply NoDup_cons in H as [_ H]). apply NoDup_cons in H as [H _].
  apply H. by left.
Qed.

(** C2, amended: the combined tuple is sorted in ascending order and is a
    rearrangement of [install_requires + extras_require + CORE_VENV_DEPS]
    that keeps every occurrence, so it is free of duplicates exactly when
    that concatenation is; [extras_require] by itself is sorted, free of
    duplicates, and holds the dependencies of all the extras. *)
Theorem requirements_sorted (config : ProjectPy.Config) (self : ProjectPy.t) :
  StronglySorted String.le
    (ProjectPy.requirements (ProjectPy.post_init_setup_cfg config self)) /\
  ProjectPy.requirements (ProjectPy.post_init_setup_cfg config self)
  ≡ₚ ProjectPy.install_requires (ProjectPy.post_init_setup_cfg config self)
     ++ ProjectPy.extras_require (ProjectPy.post_init_setup_cfg config self)
     ++ CORE_VENV_DEPS /\
  (NoDup (ProjectPy.requirements (ProjectPy.post_init_setup_cfg config self))
   <-> NoDup (ProjectPy.install_requires (ProjectPy.post_init_setup_cfg config self)
              ++ ProjectPy.extras_require (ProjectPy.post_init_setup_cfg config self)
              ++ CORE_VENV_DEPS)) /\
  StronglySorted String.le
    (ProjectPy.extras_require (ProjectPy.post_init_setup_cfg config self)) /\
  NoDup (ProjectPy.extras_require (ProjectPy.post_init_setup_cfg config self)) /\
  (forall extras x,
     ProjectPy.options config ≫= ProjectPy.opt_extras_require = Some extras ->
     x ∈ ProjectPy.extras_require (ProjectPy.post_init_setup_cfg config self)
     <-> exists extra deps, extras !! extra = Some deps /\ x ∈ deps).
Proof.
  unfold ProjectPy.post_init_setup_cfg; simpl.
  split; [apply sorted_Sorted|]. split; [apply sorted_Permutation|].
  split; [by rewrite sorted_Permutation|]. split; [apply sorted_Sorted|].
  split.
  - rewrite sorted_Permutation. apply NoDup_elements.
  - intros extras x Hex. rewrite sorted_Permutation, elem_of_elements.
    destruct (ProjectPy.options config) as [o|]; [|done]. simpl in *.
    rewrite Hex; simpl. apply elem_of_extras_set.
Qed.

(** ** [ProjectPy.pip_install] *)

Section pip_install.
Context {W : Type} `{!ProjectPy.Subprocess W}.

Lemma mapM_id_Some (l : list string) : mapM id (Some <$> l) = Some l.
Proof. by apply mapM_fmap_Some. Qed.

(** [check_call] spawns the command once; a non-zero status raises. *)
Lemma check_call_spawned (argv : list string) (s : Logged W (list string)) :
  ProjectPy.check_call (Some <$> argv) s
  = (if (ProjectPy.spawn argv (world s)).1 =? 0 then Ok tt
     else Raise (CalledProcessError (ProjectPy.spawn argv (world s)).1 argv),
     mkLogged (ProjectPy.spawn argv (world s)).2 (log s ++ [argv])).
Proof.
  unfold ProjectPy.check_call. rewrite mapM_id_Some.
  unfold mbind, St_bind, perform.
  destruct (ProjectPy.spawn argv (world s)) as [rc w']; simpl.
  by destruct (rc =? 0).
Qed.

(** Two calls in sequence: the second is made only after a zero status. *)
Lemma check_call_twice (c1 c2 : list string) (s : Logged W (list string)) :
  (_ ← ProjectPy.check_call (Some <$> c1); ProjectPy.check_call (Some <$> c2)) s
  = if (ProjectPy.spawn c1 (world s)).1 =? 0 then
      (if (ProjectPy.spawn c2 (ProjectPy.spawn c1 (world s)).2).1 =? 0 then Ok tt
       else Raise (CalledProcessError
                     (ProjectPy.spawn c2 (ProjectPy.spawn c1 (world s)).2).1 c2),
       mkLogged (ProjectPy.spawn c2 (ProjectPy.spawn c1 (world s)).2).2
                (log s ++ [c1; c2]))
    else
      (Raise (CalledProcessError (ProjectPy.spawn c1 (world s)).1 c1),
       mkLogged (ProjectPy.spawn c1 (world s)).2 (log s ++ [c1])).
Proof.
  unfold mbind, St_bind. rewrite check_call_spawned.
  destruct (_ =? 0); [|done].
  rewrite check_call_spawned; cbn [world log]. by rewrite <- app_assoc.
Qed.

Lemma pip_install_commands (self : ProjectPy.t) (args : list string)
    (site upgrade : bool) (exe : string) (s : Logged W (list string)) :
  (if site then ProjectPy.python_exe_site self else ProjectPy.python_exe_venv self)
  = Some exe ->
  ProjectPy.pip_install self args site upgrade s
  = (_ ← ProjectPy.check_call (Some <$> upgrade_pip_cmd exe);
     ProjectPy.check_call (Some <$> install_cmd self args upgrade exe)) s.
Proof. intros He. unfold ProjectPy.pip_install. by rewrite He. Qed.

(** C9: with the interpreter set, [pip_install] spawns the upgrade of pip
    and wheel and then the installation, each once.  A non-zero exit status
    of the first raises [CalledProcessError] at once, the second command
    never being spawned; a non-zero status of the second raises in the same
    way; nothing is retried.  When both exit with zero, [pip_install]
    returns normally. *)
Theorem pip_install_propagates (self : ProjectPy.t) (args : list string)
    (site upgrade : bool) (exe : string) (w : W) :
  (if site then ProjectPy.python_exe_site self else ProjectPy.python_exe_venv self)
  = Some exe ->
  ((ProjectPy.spawn (upgrade_pip_cmd exe) w).1 <> 0 ->
   ProjectPy.pip_install self args site upgrade (mkLogged w [])
   = (Raise (CalledProcessError (ProjectPy.spawn (upgrade_pip_cmd exe) w).1
                                (upgrade_pip_cmd exe)),
      mkLogged (ProjectPy.spawn (upgrade_pip_cmd exe) w).2 [upgrade_pip_cmd exe])) /\
  ((ProjectPy.spawn (upgrade_pip_cmd exe) w).1 = 0 ->
   (ProjectPy.spawn (install_cmd self args upgrade exe)
                    (ProjectPy.spawn (upgrade_pip_cmd exe) w).2).1 <> 0 ->
   ProjectPy.pip_install self args site upgrade (mkLogged w [])
   = (Raise (CalledProcessError
               (ProjectPy.spawn (install_cmd self args upgrade exe)
                                (ProjectPy.spawn (upgrade_pip_cmd exe) w).2).1
               (install_cmd self args upgrade exe)),
      mkLogged (ProjectPy.spawn (install_cmd self args upgrade exe)
                                (ProjectPy.spawn (upgrade_pip_cmd exe) w).2).2
               [upgrade_pip_cmd exe; install_cmd self args upgrade exe])) /\
  ((ProjectPy.spawn (upgrade_pip_cmd exe) w).1 = 0 ->
   (ProjectPy.spawn (install_cmd self args upgrade exe)
                    (ProjectPy.spawn (upgrade_pip_cmd exe) w).2).1 = 0 ->
   ProjectPy.pip_install self args site upgrade (mkLogged w [])
   = (Ok tt,
      mkLogged (ProjectPy.spawn (install_cmd self args upgrade exe)
                                (ProjectPy.spawn (upgrade_pip_cmd exe) w).2).2
               [upgrade_pip_cmd exe; install_cmd self args upgrade exe])).
Proof.
  intros He. rewrite (pip_install_commands self args site upgrade exe _ He).
  generalize (upgrade_pip_cmd exe) (install_cmd self args upgrade exe).
  intros c1 c2. rewrite (check_call_twice c1 c2); cbn [world log app].
  destruct (ProjectPy.spawn c1 w) as [rc1 w1]; cbn [fst snd].
  split; [|split].
  - intros H1. apply Z.eqb_neq in H1. by rewrite H1.
  - intros -> H2. cbn [Z.eqb]. apply Z.eqb_neq in H2. by rewrite H2.
  - intros -> H2. cbn [Z.eqb]. by rewrite H2.
Qed.

End pip_install.

Lemma pip_install_propagates_witness :
  ProjectPy.pip_install fresh_project [] false false (mkLogged [0; 1] [])
  = (Raise (CalledProcessError 1
              (install_cmd fresh_project [] false "/repo/venv/bin/python")),
     mkLogged []
       [upgrade_pip_cmd "/repo/venv/bin/python";
        install_cmd fresh_project [] false "/repo/venv/bin/python"]).
Proof.
  refine (proj1 (proj2 (pip_install_propagates fresh_project [] false false
                          "/repo/venv/bin/python" [0; 1] eq_refl)) eq_refl _).
  intros H. discriminate H.
Defined.

(** ** Further facts about the rendered URLs *)

(** Whatever the non-empty owner and the repo, the URL of the SSH scheme is
    not the host-colon form with a [.git] suffix. *)
Lemma url_ssh_not_host_colon (cwd o r : string) :
  o <> "" ->
  furl.tostr <$> OwnerRepo.url cwd (OwnerRepo.mk o r) ssh
  <> Ok ("git@" +:+ GITHUB_DOMAIN +:+ ":" +:+ o +:+ "/" +:+ r +:+ ".git").
Proof.
  intros Ho. rewrite url_ssh by done. unfold fmap, result_fmap.
  rewrite tostr_ssh. intros H. vm_compute in H. discriminate H.
Qed.

(** The URL of the file scheme starts with the scheme [git+file], and its
    path is the one entry, percent-encoded. *)
Lemma tostr_file_furl (p : pathlib.Path) :
  furl.tostr (file_furl p)
  = "git+file:" +:+ furl.quote furl.SAFE_SEGMENT_CHARS (pathlib.str p).
Proof.
  unfold furl.tostr, furl.urlunsplit, furl.path_str, furl.isabsolute, furl.netloc.
  reflexivity.
Qed.

(** The dependencies of two extras that share one, next to an
    [install_requires] entry that [CORE_VENV_DEPS] holds as well. *)
Example requirements_with_extras :
  let p := ProjectPy.post_init_setup_cfg
             (ProjectPy.mkConfig (Some "mproject")
                (Some (ProjectPy.mkOptions
                         (Some {[ "dev" := ["tox"; "furl"];
                                  "test" := ["furl"; "click"] ]})
                         (Some ["wheel"; "toml"]) None)))
             fresh_project in
  ProjectPy.extras_require p = ["click"; "furl"; "tox"] /\
  ProjectPy.requirements p
  = ["build"; "click"; "darling"; "furl"; "icecream"; "ipython"; "pip";
     "pip-tools"; "pytest"; "pytest-asyncio"; "rich"; "setuptools";
     "setuptools_scm"; "toml"; "tox"; "tox"; "wheel"; "wheel"].
Proof. by vm_compute. Qed.

(** * Further properties of the code *)

(** ** What [Path] makes of a string *)

Lemma split_no_sep (c : ascii) (s x : string) :
  x ∈ split c s -> has_char c x = false.
Proof.
  revert x. induction s as [|a s IH]; intros x Hx; simpl in Hx.
  - apply list_elem_of_singleton in Hx. by subst x.
  - destruct (Ascii.eqb a c) eqn:Hac.
    + apply elem_of_cons in Hx as [->|Hx]; [done|]. by apply IH.
    + destruct (split c s) as [|y ys] eqn:Hsp.
      * apply list_elem_of_singleton in Hx. subst x; simpl. by rewrite Hac.
      * apply elem_of_cons in Hx as [->|Hx].
        -- simpl. rewrite Hac; simpl. apply IH. by left.
        -- apply IH. by right.
Qed.

Lemma keep_part_wf (x : string) :
  Is_true (pathlib.keep_part x) -> has_char "/" x = false -> wf_part x.
Proof.
  unfold pathlib.keep_part. intros Hk Hc.
  apply Is_true_true, andb_true_iff in Hk as [Ht Hd].
  apply truthy_true in Ht. apply negb_true_iff, String.eqb_neq in Hd. done.
Qed.

Lemma splitroot_root (s : string) :
  (pathlib.splitroot s).1 = "" \/ (pathlib.splitroot s).1 = "/"
  \/ (pathlib.splitroot s).1 = "//".
Proof.
  unfold pathlib.splitroot. destruct (startswith s "/"); [|by left].
  destruct (_ =? 2)%nat; auto.
Qed.

Lemma parse_fields (s : string) :
  pathlib.root (pathlib.parse s) = (pathlib.splitroot s).1 /\
  pathlib.parts (pathlib.parse s)
  = filter (fun x => Is_true (pathlib.keep_part x))
           (split "/" (pathlib.splitroot s).2).
Proof. unfold pathlib.parse. by destruct (pathlib.splitroot s). Qed.

(** Every path parsed from a string is well formed. *)
Lemma parse_wf (s : string) : wf_path (pathlib.parse s).
Proof.
  destruct (parse_fields s) as [Hr Hp]. split.
  - rewrite Hr. apply splitroot_root.
  - rewrite Hp. apply Forall_forall. intros x Hx.
    apply list_elem_of_filter in Hx as [Hk Hx].
    apply keep_part_wf; [done|]. by apply split_no_sep in Hx.
Qed.

Lemma wf_part_not_absolute (x : string) : wf_part x -> startswith x "/" = false.
Proof.
  intros (Hne & _ & Hc). destruct x as [|a x]; [done|]. simpl in Hc.
  apply orb_false_iff in Hc as [Ha _]. unfold startswith. cbn [String.prefix].
  destruct (ascii_dec "/" a) as [<-|Hn]; [discriminate|done].
Qed.

Lemma two_last (l : list string) :
  (2 <= length l)%nat -> exists pre a b, l = pre ++ [a; b].
Proof.
  intros Hl. destruct (decide (l = [])) as [->|Hne]; [simpl in Hl; lia|].
  destruct (exists_last Hne) as (l' & b & ->).
  destruct (decide (l' = [])) as [->|Hne']; [simpl in Hl; lia|].
  destruct (exists_last Hne') as (pre & a & ->).
  exists pre, a, b. by rewrite <- app_assoc.
Qed.

(** ** [OwnerRepo.from_path] on a path given as a string *)

(** X1: for a path built from a string, [from_path] fails exactly when the
    path has fewer than two components (the root not counted), and
    otherwise returns the last two components as owner and repo: none of
    the components [Path] keeps is empty. *)
Theorem from_path_parse (s : string) :
  (raises (OwnerRepo.from_path (pathlib.parse s))
   <-> (length (pathlib.parts (pathlib.parse s)) <= 1)%nat) /\
  (forall pre a b, pathlib.parts (pathlib.parse s) = pre ++ [a; b] ->
     OwnerRepo.from_path (pathlib.parse s) = Ok (OwnerRepo.mk a b)).
Proof.
  pose proof (parse_wf s) as [_ Hwf]. unfold OwnerRepo.from_path.
  assert (Hok : forall pre a b, pathlib.parts (pathlib.parse s) = pre ++ [a; b] ->
     OwnerRepo.new (pathlib.name (pathlib.parent (pathlib.parse s)))
                   (pathlib.name (pathlib.parse s)) = Ok (OwnerRepo.mk a b)).
  { intros pre a b Hp. rewrite Hp in Hwf.
    apply Forall_app in Hwf as [_ Hab].
    apply Forall_cons in Hab as [(Ha & _) Hb].
    apply Forall_cons in Hb as [(Hb & _) _].
    destruct (pathlib.parse s) as [rt ps]; simpl in Hp; subst ps.
    rewrite name_snoc2, parent_name_snoc2. by apply new_ok. }
  split; [|exact Hok]. split.
  - intros [e He].
    destruct (decide (length (pathlib.parts (pathlib.parse s)) <= 1)%nat) as [|Hn];
      [done|].
    destruct (two_last (pathlib.parts (pathlib.parse s))) as (pre & a & b & Hp);
      [lia|].
    rewrite (Hok pre a b Hp) in He. discriminate.
  - intros Hlen. eexists. apply new_raise. left. by apply parent_name_short.
Qed.

Lemma from_path_parse_ok (s : string) (o : OwnerRepo.t) :
  OwnerRepo.from_path (pathlib.parse s) = Ok o ->
  wf_part (OwnerRepo.owner o) /\ wf_part (OwnerRepo.repo o).
Proof.
  intros Ho. pose proof (parse_wf s) as [_ Hwf].
  destruct (decide (length (pathlib.parts (pathlib.parse s)) <= 1)%nat) as [Hl|Hn].
  - unfold OwnerRepo.from_path in Ho.
    rewrite new_raise in Ho; [discriminate|]. left. by apply parent_name_short.
  - destruct (two_last (pathlib.parts (pathlib.parse s))) as (pre & a & b & Hp);
      [lia|].
    rewrite Hp in Hwf. apply Forall_app in Hwf as [_ Hab].
    apply Forall_cons in Hab as [Ha Hb]. apply Forall_cons in Hb as [Hb _].
    unfold OwnerRepo.from_path in Ho.
    destruct (pathlib.parse s) as [rt ps]; simpl in Hp; subst ps.
    rewrite name_snoc2, parent_name_snoc2 in Ho.
    rewrite new_ok in Ho by (by destruct Ha, Hb). by injection Ho as <-.
Qed.

(** X2: an [OwnerRepo] obtained from a path given as a string never has
    a URL of the file scheme, its repo being a single path component: the
    guard of [url] raises.  Under each of the other four schemes [url]
    returns a [furl] whose path segments are the owner and the repo. *)
Theorem from_path_then_url (cwd s : string) (o : OwnerRepo.t) :
  OwnerRepo.from_path (pathlib.parse s) = Ok o ->
  OwnerRepo.url cwd o git_file
  = Raise (ValueError ("Repo must be an absolute file for 'git+file': "
                       +:+ OwnerRepo.repo o)) /\
  (forall sch, sch <> git_file ->
     exists u, OwnerRepo.url cwd o sch = Ok u
               /\ furl.segments u = [OwnerRepo.owner o; OwnerRepo.repo o]).
Proof.
  intros Ho. apply from_path_parse_ok in Ho as [Hown Hrepo]. split.
  - rewrite url_git_file. by rewrite (wf_part_not_absolute _ Hrepo).
  - intros sch Hs. rewrite url_other by done. eexists. split; [done|].
    unfold furl.new, furl.load_path; simpl.
    destruct Hown as [Hne _]. apply String.eqb_neq in Hne. by rewrite Hne.
Qed.

Lemma from_path_then_url_witness :
  OwnerRepo.url "/" (OwnerRepo.mk "j5pu" "mproject") git_file
  = Raise (ValueError "Repo must be an absolute file for 'git+file': mproject") /\
  (forall sch, sch <> git_file ->
     exists u, OwnerRepo.url "/" (OwnerRepo.mk "j5pu" "mproject") sch = Ok u
               /\ furl.segments u = ["j5pu"; "mproject"]).
Proof.
  exact (from_path_then_url "/" "/home/j5pu/mproject"
           (OwnerRepo.mk "j5pu" "mproject") eq_refl).
Defined.

(** ** [OwnerRepo.url]: what goes into the [furl] *)

(** X3: for a validated [OwnerRepo] and each of the four network schemes,
    [url] returns a [furl] that carries the scheme asked for, the host
    [github.com], the owner and the repo as its two path segments, in this
    order and unchanged, and the user [git] exactly under the two schemes
    whose name contains [ssh]. *)
Theorem url_network_components (cwd o r : string) (self : OwnerRepo.t)
    (sch : GitScheme) :
  OwnerRepo.new o r = Ok self ->
  sch <> git_file ->
  exists u,
    OwnerRepo.url cwd self sch = Ok u /\
    furl.scheme u = Some (scheme_str sch) /\
    furl.host u = Some GITHUB_DOMAIN /\
    furl.segments u = [o; r] /\
    (furl.username u = Some "git" <-> sch = git_ssh \/ sch = ssh) /\
    (furl.username u = None <-> sch = git_https \/ sch = https).
Proof.
  intros Hnew Hs.
  destruct (decide (o = "")) as [Ho|Ho];
    [rewrite new_raise in Hnew by auto; discriminate|].
  destruct (decide (r = "")) as [Hr|Hr];
    [rewrite new_raise in Hnew by auto; discriminate|].
  rewrite new_ok in Hnew by done. injection Hnew as <-.
  rewrite url_other by done. eexists. split; [done|].
  unfold furl.new, furl.load_path; simpl.
  apply String.eqb_neq in Ho. rewrite Ho; simpl.
  destruct sch; [done|..]; simpl;
    (split; [reflexivity|]); (split; [reflexivity|]); (split; [reflexivity|]);
    (split; split; intros H; try discriminate H; try (destruct H; discriminate);
     auto).
Qed.

Lemma url_network_components_witness :
  exists u,
    OwnerRepo.url "/" (OwnerRepo.mk "j5pu" "mproject") git_ssh = Ok u /\
    furl.scheme u = Some "git+ssh" /\
    furl.host u = Some "github.com" /\
    furl.segments u = ["j5pu"; "mproject"] /\
    (furl.username u = Some "git" <-> git_ssh = git_ssh \/ git_ssh = ssh) /\
    (furl.username u = None <-> git_ssh = git_https \/ git_ssh = https).
Proof.
  exact (url_network_components "/" "j5pu" "mproject"
           (OwnerRepo.mk "j5pu" "mproject") git_ssh eq_refl
           ltac:(discriminate)).
Defined.

(** X4: under the file scheme the result of [url] is decided by the path
    that [Path] parses out of the repo: the owner is not used, and two
    spellings of one path (doubled slashes, dot components, a trailing
    slash) give the same result. *)
Theorem url_git_file_by_path (cwd1 cwd2 : string) (a b : OwnerRepo.t) :
  startswith (OwnerRepo.repo a) "/" = true ->
  startswith (OwnerRepo.repo b) "/" = true ->
  pathlib.parse (OwnerRepo.repo a) = pathlib.parse (OwnerRepo.repo b) ->
  OwnerRepo.url cwd1 a git_file = OwnerRepo.url cwd2 b git_file.
Proof. intros Ha Hb Hp. by rewrite !url_git_file, Ha, Hb, Hp. Qed.

Lemma url_git_file_by_path_witness :
  OwnerRepo.url "/" (OwnerRepo.mk "j5pu" "/tmp//cpython/") git_file
  = OwnerRepo.url "/home" (OwnerRepo.mk "python" "/tmp/./cpython") git_file.
Proof.
  exact (url_git_file_by_path "/" "/home" (OwnerRepo.mk "j5pu" "/tmp//cpython/")
           (OwnerRepo.mk "python" "/tmp/./cpython") eq_refl eq_refl eq_refl).
Defined.

Lemma concat_snoc_app (sep x sfx : string) (l : list string) :
  String.concat sep (l ++ [x +:+ sfx]) = String.concat sep (l ++ [x]) +:+ sfx.
Proof.
  induction l as [|y l IH]; [done|].
  rewrite <- !app_comm_cons, !concat_cons by by destruct l.
  by rewrite IH, !string_app_assoc.
Qed.

Lemma replace_suffix_stem (n old sfx : string) :
  exists stem, pathlib.replace_suffix n old sfx = stem +:+ sfx.
Proof. unfold pathlib.replace_suffix. destruct (truthy old); by eexists. Qed.

Lemma startswith_slash_cons (s : string) : startswith (String "/" s) "/" = true.
Proof.
  unfold startswith. cbn [String.prefix].
  destruct (ascii_dec "/" "/"); [by destruct s|done].
Qed.

Lemma root_of_absolute (s : string) :
  startswith s "/" = true ->
  pathlib.root (pathlib.parse s) = "/" \/ pathlib.root (pathlib.parse s) = "//".
Proof.
  intros H. unfold pathlib.parse, pathlib.splitroot. rewrite H.
  destruct (_ =? 2)%nat; auto.
Qed.

(** X5: whenever [url] returns under the file scheme, the [furl] has
    exactly one path entry, and this entry starts with a slash and ends
    with [.git]. *)
Theorem url_git_file_entry (cwd : string) (self : OwnerRepo.t) (u : furl.t) :
  OwnerRepo.url cwd self git_file = Ok u ->
  exists entry stem,
    furl.segments u = [entry] /\
    startswith entry "/" = true /\
    entry = stem +:+ ".git".
Proof.
  rewrite url_git_file.
  destruct (startswith (OwnerRepo.repo self) "/") eqn:Hs; simpl; [|discriminate].
  destruct (truthy _) eqn:Hn; [|discriminate]. intros [= <-].
  set (p := pathlib.parse (OwnerRepo.repo self)).
  destruct (replace_suffix_stem (pathlib.name p) (pathlib.suffix p) ".git")
    as [stem Hstem].
  assert (Hstr : pathlib.str (dot_git p)
    = (pathlib.root p +:+ String.concat "/" (removelast (pathlib.parts p) ++ [stem]))
      +:+ ".git").
  { unfold pathlib.str, dot_git; simpl. rewrite Hstem, concat_snoc_app.
    rewrite <- string_app_assoc.
    destruct (truthy (_ +:+ ".git")) eqn:Ht; [done|].
    apply truthy_false, string_app_empty in Ht as [_ Ht]. discriminate. }
  exists (pathlib.str (dot_git p)), (pathlib.root p
    +:+ String.concat "/" (removelast (pathlib.parts p) ++ [stem])).
  split; [reflexivity|]. split; [|exact Hstr]. rewrite Hstr.
  destruct (root_of_absolute _ Hs) as [Hr|Hr]; fold p in Hr; rewrite Hr;
    apply startswith_slash_cons.
Qed.

Lemma url_git_file_entry_witness :
  exists entry stem,
    furl.segments (furl.mk (Some "git+file") None None ["/tmp/my.git"] false)
    = [entry] /\
    startswith entry "/" = true /\
    entry = stem +:+ ".git".
Proof.
  exact (url_git_file_entry "/" (OwnerRepo.mk "j5pu" "/tmp/my.repo")
           (furl.mk (Some "git+file") None None ["/tmp/my.git"] false) eq_refl).
Defined.

(** ** [EnvBuilder]: which base method is called, and on what *)

Section env_builder.
Context {W : Type} `{!EnvBuilder.Base W}.
Implicit Types (self : EnvBuilder.t) (d e : EnvBuilder.path_like)
               (s : Logged W EnvBuilder.call).

Lemma quiet_bind {A B} (m : St (Logged W EnvBuilder.call) A)
    (k : A -> St (Logged W EnvBuilder.call) B) :
  quiet m -> (forall a, quiet (k a)) -> quiet (m ≫= k).
Proof.
  intros Hm Hk s. unfold mbind, St_bind. specialize (Hm s).
  destruct (m s) as [[a|e] s1]; simpl in *; [|done]. by rewrite Hk.
Qed.

Lemma quiet_ret {A} (a : A) : quiet (mret a : St (Logged W EnvBuilder.call) A).
Proof. by intros s. Qed.

Lemma quiet_silent {A} (op : W -> result A * W) :
  quiet (silent op : St (Logged W EnvBuilder.call) A).
Proof. intros s. unfold silent. by destruct (op (world s)). Qed.

Lemma quiet_attempt {A} (f : W -> result A) :
  quiet (attempt f : St (Logged W EnvBuilder.call) A).
Proof. by intros s. Qed.

Lemma quiet_if {A} (b : bool) (m1 m2 : St (Logged W EnvBuilder.call) A) :
  quiet m1 -> quiet m2 -> quiet (if b then m1 else m2).
Proof. by destruct b. Qed.

(** The steps of the base class's [create] make no call through [super()]. *)
Lemma base_setup_quiet self (ctx : EnvBuilder.Context) :
  quiet (EnvBuilder.base_setup self ctx).
Proof.
  unfold EnvBuilder.base_setup, EnvBuilder.post_setup.
  repeat first
    [ apply quiet_bind; [|intros ?]
    | apply quiet_if
    | apply quiet_silent
    | apply quiet_attempt
    | apply quiet_ret ].
Qed.

(** With [upgrade] off, the base class's [create] reaches [post_setup],
    unless a step before it has raised: it never returns. *)
Lemma base_setup_raises self (ctx : EnvBuilder.Context) s :
  EnvBuilder.upgrade self = false ->
  raises (EnvBuilder.base_setup self ctx s).1.
Proof.
  intros Hu.
  unfold raises, EnvBuilder.base_setup, EnvBuilder.post_setup, EnvBuilder.ProjectPy_construct,
    mbind, St_bind, silent, attempt; simpl.
  rewrite Hu; simpl.
  destruct (EnvBuilder.create_configuration _ _ _) as [[[]|e1] w1]; simpl; eauto.
  destruct (EnvBuilder.setup_python _ _ _) as [[[]|e2] w2]; simpl; eauto.
  destruct (EnvBuilder.with_pip self); simpl.
  - destruct (EnvBuilder.setup_pip _ _ _) as [[[]|e3] w3]; simpl; eauto.
    destruct (EnvBuilder.setup_scripts _ _ _) as [[[]|e4] w4]; simpl; eauto.
  - destruct (EnvBuilder.setup_scripts _ _ _) as [[[]|e4] w4]; simpl; eauto.
Qed.

(** The calls of the base class's [create]: none through [super()] but the
    one of [ensure_directories], on the absolute path. *)
Lemma base_create_log self (d : option EnvBuilder.path_like) s :
  log (EnvBuilder.base_create self d s).2
  = log s ++ EnvBuilder.reentered (EnvBuilder.abspath (world s) d).
Proof.
  unfold EnvBuilder.base_create, mbind at 1. unfold St_bind, attempt.
  destruct (EnvBuilder.abspath (world s) d) as [a|e] eqn:Ha; simpl;
    [|by rewrite app_nil_r].
  unfold mbind, St_bind, EnvBuilder.ensure_directories, EnvBuilder.path_or, perform.
  cbn [EnvBuilder.path_truthy]. rewrite (EnvBuilder.abspath_truthy _ _ _ Ha).
  unfold mbind, St_bind.
  destruct (EnvBuilder.base_ensure_directories _ _ _) as [[ctx|e] w']; simpl; [|done].
  by rewrite base_setup_quiet.
Qed.

Lemma create_log self (d : option EnvBuilder.path_like) s :
  log (EnvBuilder.create self d s).2
  = log s
    ++ EnvBuilder.SuperCreate
         (if EnvBuilder.path_truthy d && bool_decide (EnvBuilder.env_dir self = None)
          then d else EnvBuilder.env_dir self)
       :: EnvBuilder.reentered
            (EnvBuilder.abspath (world s)
               (if EnvBuilder.path_truthy d
                   && bool_decide (EnvBuilder.env_dir self = None)
                then d else EnvBuilder.env_dir self)).
Proof.
  unfold EnvBuilder.create, mbind, St_bind, record.
  destruct (EnvBuilder.path_truthy d && bool_decide (EnvBuilder.env_dir self = None));
    cbn [EnvBuilder.env_dir EnvBuilder.set_env_dir];
    rewrite base_create_log; cbn [world log]; by rewrite <- app_assoc.
Qed.

(** X6: constructing an [EnvBuilder] makes no call on the base class when
    [env_dir] is [None] or the empty string: the world stays as it was and
    the object is the one given with the fields that the base class's
    [__init__] stores.  When [Path(env_dir)] exists the one call is
    [ensure_directories] on it.  When it does not exist the call is
    [create] on it, and the base class's [create] comes back to the wrapper
    for one call of [ensure_directories], on the absolute path as a string,
    unless computing that path has raised. *)
Theorem new_base_calls self s :
  log (EnvBuilder.new self s).2
  = log s
    ++ match EnvBuilder.env_dir self with
       | Some d =>
           if EnvBuilder.path_truthy (Some d) then
             if EnvBuilder.path_exists (world s) (EnvBuilder.to_path d)
             then [EnvBuilder.SuperEnsureDirectories (EnvBuilder.target d)]
             else EnvBuilder.SuperCreate (EnvBuilder.target d)
                  :: EnvBuilder.reentered
                       (EnvBuilder.abspath (world s) (EnvBuilder.target d))
           else []
       | None => []
       end /\
  (EnvBuilder.path_truthy (EnvBuilder.env_dir self) = false ->
   EnvBuilder.new self s
   = (Ok (EnvBuilder.init_fields (EnvBuilder.cwd_basename (world s)) self), s)).
Proof.
  unfold EnvBuilder.new. split; [|apply post_init_no_dir].
  destruct (EnvBuilder.env_dir self) as [d|] eqn:Hd.
  - destruct (EnvBuilder.path_truthy (Some d)) eqn:Ht.
    + destruct (EnvBuilder.path_exists (world s) (EnvBuilder.to_path d)) eqn:Hex.
      * rewrite (post_init_existing self d s Hd Ht Hex).
        by destruct (EnvBuilder.base_ensure_directories _ _ _).
      * rewrite (post_init_absent self d s Hd Ht Hex), create_log. done.
    + rewrite post_init_no_dir by by rewrite Hd. by rewrite app_nil_r.
  - rewrite post_init_no_dir by by rewrite Hd. by rewrite app_nil_r.
Qed.

(** X7: given a directory argument, [create] and [ensure_directories]
    resolve the target in opposite orders.  [create] calls the base class
    on the [env_dir] of the object when it is set, and on the argument only
    when it is [None]; the base class's [create] then comes back for
    [ensure_directories] on the absolute path of that target.
    [ensure_directories] itself calls the base class on its argument and
    ignores the [env_dir] of the object. *)
Theorem create_and_ensure_directories_target self (d : option EnvBuilder.path_like) s :
  EnvBuilder.path_truthy d = true ->
  (forall e, EnvBuilder.env_dir self = Some e ->
     log (EnvBuilder.create self d s).2
     = log s ++ EnvBuilder.SuperCreate (Some e)
                :: EnvBuilder.reentered (EnvBuilder.abspath (world s) (Some e))) /\
  (EnvBuilder.env_dir self = None ->
     log (EnvBuilder.create self d s).2
     = log s ++ EnvBuilder.SuperCreate d
                :: EnvBuilder.reentered (EnvBuilder.abspath (world s) d)) /\
  log (EnvBuilder.ensure_directories self d s).2
  = log s ++ [EnvBuilder.SuperEnsureDirectories d].
Proof.
  intros Hd. split; [|split].
  - intros e He. rewrite create_log, Hd, He. done.
  - intros He. rewrite create_log, Hd, He. done.
  - unfold EnvBuilder.ensure_directories, EnvBuilder.path_or, mbind, St_bind, perform.
    rewrite Hd. by destruct (EnvBuilder.base_ensure_directories _ _ _) as [[?|?] ?].
Qed.

(** X8: when the construction against an existing directory returns, the
    object it returns holds the context that the base class's
    [ensure_directories] produced for [Path(env_dir)], its [env_dir] is that
    path, its prompt is the one given, or the name of the working directory
    when the one given is ["."], and its other fields are those given. *)
Theorem new_existing_context self d s (b : EnvBuilder.t) s' :
  EnvBuilder.env_dir self = Some d ->
  EnvBuilder.path_truthy (Some d) = true ->
  EnvBuilder.path_exists (world s) (EnvBuilder.to_path d) = true ->
  EnvBuilder.new self s = (Ok b, s') ->
  exists ctx,
    EnvBuilder.base_ensure_directories
      (EnvBuilder.with_path
         (EnvBuilder.init_fields (EnvBuilder.cwd_basename (world s)) self) d)
      (EnvBuilder.target d) (world s) = (Ok ctx, world s') /\
    EnvBuilder.context b = Some ctx /\
    EnvBuilder.env_dir b = EnvBuilder.target d /\
    EnvBuilder.prompt b
    = (if bool_decide (EnvBuilder.prompt self = Some ".")
       then Some (EnvBuilder.cwd_basename (world s)) else EnvBuilder.prompt self) /\
    EnvBuilder.orig_prompt b = Some (EnvBuilder.prompt self) /\
    b = EnvBuilder.set_context
          (EnvBuilder.with_path
             (EnvBuilder.init_fields (EnvBuilder.cwd_basename (world s)) self) d)
          (Some ctx).
Proof.
  intros Hd Ht Hex. unfold EnvBuilder.new.
  rewrite (post_init_existing self d s Hd Ht Hex).
  destruct (EnvBuilder.base_ensure_directories _ _ _) as [[ctx|e] w'];
    [|discriminate].
  intros [= <- <-]. by exists ctx.
Qed.

(** X15: constructing an [EnvBuilder] with [upgrade] off on a directory
    that does not exist never returns an object.  The construction reaches
    the base class's [create], whose last hook, [post_setup], builds a
    [ProjectPy], which fails; so it raises, there or before. *)
Theorem new_absent_raises self d s :
  EnvBuilder.env_dir self = Some d ->
  EnvBuilder.path_truthy (Some d) = true ->
  EnvBuilder.path_exists (world s) (EnvBuilder.to_path d) = false ->
  EnvBuilder.upgrade self = false ->
  raises (EnvBuilder.new self s).1.
Proof.
  intros Hd Ht Hex Hu. unfold EnvBuilder.new.
  rewrite (post_init_absent self d s Hd Ht Hex).
  unfold EnvBuilder.create, mbind, St_bind, record.
  cbn [EnvBuilder.path_truthy EnvBuilder.target EnvBuilder.with_path
       EnvBuilder.set_env_dir EnvBuilder.env_dir andb].
  rewrite bool_decide_eq_false_2 by done.
  unfold EnvBuilder.base_create, mbind, St_bind, attempt; cbn [world].
  destruct (EnvBuilder.abspath _ _) as [a|e]; [|by eexists].
  unfold EnvBuilder.ensure_directories, mbind, St_bind, perform.
  destruct (EnvBuilder.base_ensure_directories _ _ _) as [[ctx|e] w'];
    [|by eexists].
  cbn [fst snd]. by apply base_setup_raises.
Qed.

End env_builder.

Lemma create_and_ensure_directories_target_witness :
  (forall e, EnvBuilder.env_dir (EnvBuilder.defaults (Some venv_dir)) = Some e ->
     log (EnvBuilder.create (EnvBuilder.defaults (Some venv_dir))
            (Some (EnvBuilder.PStr "/elsewhere")) (mkLogged venv_world [])).2
     = [] ++ EnvBuilder.SuperCreate (Some e)
             :: EnvBuilder.reentered (EnvBuilder.abspath venv_world (Some e))) /\
  (EnvBuilder.env_dir (EnvBuilder.defaults (Some venv_dir)) = None ->
     log (EnvBuilder.create (EnvBuilder.defaults (Some venv_dir))
            (Some (EnvBuilder.PStr "/elsewhere")) (mkLogged venv_world [])).2
     = [] ++ EnvBuilder.SuperCreate (Some (EnvBuilder.PStr "/elsewhere"))
             :: EnvBuilder.reentered
                  (EnvBuilder.abspath venv_world
                     (Some (EnvBuilder.PStr "/elsewhere")))) /\
  log (EnvBuilder.ensure_directories (EnvBuilder.defaults (Some venv_dir))
         (Some (EnvBuilder.PStr "/elsewhere")) (mkLogged venv_world [])).2
  = [] ++ [EnvBuilder.SuperEnsureDirectories (Some (EnvBuilder.PStr "/elsewhere"))].
Proof.
  exact (create_and_ensure_directories_target
           (EnvBuilder.defaults (Some venv_dir))
           (Some (EnvBuilder.PStr "/elsewhere")) (mkLogged venv_world []) eq_refl).
Defined.

Lemma new_existing_context_witness :
  exists ctx,
    EnvBuilder.base_ensure_directories
      (EnvBuilder.with_path
         (EnvBuilder.init_fields "repo" (EnvBuilder.defaults (Some venv_dir)))
         venv_dir)
      (EnvBuilder.target venv_dir) venv_world
    = (Ok ctx,
       world (EnvBuilder.new (EnvBuilder.defaults (Some venv_dir))
                             (mkLogged venv_world [])).2) /\
    Some (EnvBuilder.mkContext "/repo/venv" "/repo/venv/bin/python") = Some ctx /\
    EnvBuilder.target venv_dir = EnvBuilder.target venv_dir /\
    Some "repo" = Some "repo" /\
    Some (Some ".") = Some (Some ".") /\
    EnvBuilder.set_context
      (EnvBuilder.with_path
         (EnvBuilder.init_fields "repo" (EnvBuilder.defaults (Some venv_dir)))
         venv_dir)
      (Some (EnvBuilder.mkContext "/repo/venv" "/repo/venv/bin/python"))
    = EnvBuilder.set_context
        (EnvBuilder.with_path
           (EnvBuilder.init_fields "repo" (EnvBuilder.defaults (Some venv_dir)))
           venv_dir)
        (Some ctx).
Proof.
  refine (new_existing_context (EnvBuilder.defaults (Some venv_dir)) venv_dir
            (mkLogged venv_world [])
            (EnvBuilder.set_context
               (EnvBuilder.with_path
                  (EnvBuilder.init_fields "repo"
                     (EnvBuilder.defaults (Some venv_dir)))
                  venv_dir)
               (Some (EnvBuilder.mkContext "/repo/venv" "/repo/venv/bin/python")))
            (EnvBuilder.new (EnvBuilder.defaults (Some venv_dir))
                            (mkLogged venv_world [])).2 _ _ _ _).
  - reflexivity.
  - reflexivity.
  - vm_compute. reflexivity.
  - vm_compute. reflexivity.
Defined.

Lemma new_absent_raises_witness :
  raises (EnvBuilder.new (EnvBuilder.defaults (Some other_dir))
                         (mkLogged venv_world [])).1.
Proof.
  apply (new_absent_raises (EnvBuilder.defaults (Some other_dir)) other_dir
           (mkLogged venv_world [])).
  - reflexivity.
  - reflexivity.
  - vm_compute. reflexivity.
  - reflexivity.
Defined.

(** ** [ProjectPy]: requirements at the edges, and their installation *)

Lemma extras_set_empty : ProjectPy.extras_set ∅ = ∅.
Proof. unfold ProjectPy.extras_set. by rewrite map_to_list_empty. Qed.

Lemma sorted_core : sorted CORE_VENV_DEPS = CORE_VENV_DEPS.
Proof. by vm_compute. Qed.

(** X9: when the parsed [setup.cfg] has no [options] table, or one with
    neither [install_requires] nor [extras_require], both tuples are empty
    and the combined requirements are [CORE_VENV_DEPS] as they stand: the
    core list is in ascending order already. *)
Theorem requirements_without_options (config : ProjectPy.Config)
    (self : ProjectPy.t) :
  ProjectPy.options config ≫= ProjectPy.opt_install_requires = None ->
  ProjectPy.options config ≫= ProjectPy.opt_extras_require = None ->
  ProjectPy.install_requires (ProjectPy.post_init_setup_cfg config self) = [] /\
  ProjectPy.extras_require (ProjectPy.post_init_setup_cfg config self) = [] /\
  ProjectPy.requirements (ProjectPy.post_init_setup_cfg config self)
  = CORE_VENV_DEPS.
Proof.
  intros Hi He. unfold ProjectPy.post_init_setup_cfg; simpl.
  destruct (ProjectPy.options config) as [o|]; simpl in *.
  - rewrite Hi, He; simpl. rewrite extras_set_empty, elements_empty.
    split; [reflexivity|]. split; [reflexivity|]. apply sorted_core.
  - rewrite extras_set_empty, elements_empty.
    split; [reflexivity|]. split; [reflexivity|]. apply sorted_core.
Qed.

Lemma requirements_without_options_witness :
  ProjectPy.install_requires
    (ProjectPy.post_init_setup_cfg (ProjectPy.mkConfig (Some "mproject") None)
                                   fresh_project) = [] /\
  ProjectPy.extras_require
    (ProjectPy.post_init_setup_cfg (ProjectPy.mkConfig (Some "mproject") None)
                                   fresh_project) = [] /\
  ProjectPy.requirements
    (ProjectPy.post_init_setup_cfg (ProjectPy.mkConfig (Some "mproject") None)
                                   fresh_project)
  = CORE_VENV_DEPS.
Proof.
  exact (requirements_without_options (ProjectPy.mkConfig (Some "mproject") None)
           fresh_project eq_refl eq_refl).
Defined.

(** X10: [extras_require] depends on the dependencies named by the extras
    only: two tables naming the same dependencies, however these are
    grouped into extras, ordered or repeated, give the same tuple. *)
Theorem extras_require_grouping (m1 m2 : gmap string (list string))
    (n1 n2 : option string) (i1 i2 p1 p2 : option (list string))
    (self1 self2 : ProjectPy.t) :
  (forall x, (exists extra deps, m1 !! extra = Some deps /\ x ∈ deps)
             <-> (exists extra deps, m2 !! extra = Some deps /\ x ∈ deps)) ->
  ProjectPy.extras_require
    (ProjectPy.post_init_setup_cfg
       (ProjectPy.mkConfig n1 (Some (ProjectPy.mkOptions (Some m1) i1 p1))) self1)
  = ProjectPy.extras_require
      (ProjectPy.post_init_setup_cfg
         (ProjectPy.mkConfig n2 (Some (ProjectPy.mkOptions (Some m2) i2 p2))) self2).
Proof.
  intros H. unfold ProjectPy.post_init_setup_cfg; simpl.
  assert (E : ProjectPy.extras_set m1 = ProjectPy.extras_set m2).
  { apply set_eq. intros x. by rewrite !elem_of_extras_set. }
  by rewrite E.
Qed.

Lemma extras_require_grouping_witness :
  ProjectPy.extras_require
    (ProjectPy.post_init_setup_cfg
       (ProjectPy.mkConfig None
          (Some (ProjectPy.mkOptions
                   (Some {[ "dev" := ["tox"; "furl"]; "test" := ["furl"] ]})
                   None None)))
       fresh_project)
  = ProjectPy.extras_require
      (ProjectPy.post_init_setup_cfg
         (ProjectPy.mkConfig (Some "mproject")
            (Some (ProjectPy.mkOptions
                     (Some {[ "all" := ["furl"; "tox"; "tox"] ]})
                     (Some ["toml"]) None)))
         unprovisioned_project).
Proof.
  apply extras_require_grouping. intros x. rewrite <- !elem_of_extras_set.
  assert (E : ProjectPy.extras_set {[ "dev" := ["tox"; "furl"]; "test" := ["furl"] ]}
              = ProjectPy.extras_set {[ "all" := ["furl"; "tox"; "tox"] ]})
    by (vm_compute; reflexivity).
  by rewrite E.
Defined.

Section pip_install_edges.
Context {W : Type} `{!ProjectPy.Subprocess W}.

(** X11: when the interpreter that [pip_install] selects is not set (the
    [venv] one before an environment exists, unless [site] is given), it
    raises [TypeError] and spawns nothing. *)
Theorem pip_install_without_interpreter (self : ProjectPy.t) (args : list string)
    (site upgrade : bool) (s : Logged W (list string)) :
  (if site then ProjectPy.python_exe_site self else ProjectPy.python_exe_venv self)
  = None ->
  ProjectPy.pip_install self args site upgrade s
  = (Raise (TypeError "expected str, bytes or os.PathLike object, not NoneType"), s).
Proof.
  intros He. unfold ProjectPy.pip_install. rewrite He.
  unfold mbind at 1. unfold St_bind. by unfold ProjectPy.check_call at 1.
Qed.

(** X12: after the requirements are read from [setup.cfg], [pip_install]
    without arguments, both commands exiting with zero, returns normally
    having spawned the upgrade of pip and wheel and then one quiet
    installation whose packages are the combined requirements: every entry
    of [install_requires], of [extras_require] and of [CORE_VENV_DEPS], and
    nothing else. *)
Theorem pip_install_installs_requirements (config : ProjectPy.Config)
    (self : ProjectPy.t) (site : bool) (exe : string) (w : W) :
  (if site then ProjectPy.python_exe_site self else ProjectPy.python_exe_venv self)
  = Some exe ->
  (ProjectPy.spawn (upgrade_pip_cmd exe) w).1 = 0 ->
  (ProjectPy.spawn
     (exe :: ProjectPy.pip_install_options
          ++ ProjectPy.requirements (ProjectPy.post_init_setup_cfg config self))
     (ProjectPy.spawn (upgrade_pip_cmd exe) w).2).1 = 0 ->
  ProjectPy.pip_install (ProjectPy.post_init_setup_cfg config self) [] site false
                        (mkLogged w [])
  = (Ok tt,
     mkLogged
       (ProjectPy.spawn
          (exe :: ProjectPy.pip_install_options
               ++ ProjectPy.requirements (ProjectPy.post_init_setup_cfg config self))
          (ProjectPy.spawn (upgrade_pip_cmd exe) w).2).2
       [upgrade_pip_cmd exe;
        exe :: ProjectPy.pip_install_options
            ++ ProjectPy.requirements (ProjectPy.post_init_setup_cfg config self)]) /\
  (forall x,
     x ∈ ProjectPy.requirements (ProjectPy.post_init_setup_cfg config self)
     <-> x ∈ ProjectPy.install_requires (ProjectPy.post_init_setup_cfg config self)
         \/ x ∈ ProjectPy.extras_require (ProjectPy.post_init_setup_cfg config self)
         \/ x ∈ CORE_VENV_DEPS).
Proof.
  intros He H1 H2. split.
  - rewrite (pip_install_commands _ [] site false exe); [|by destruct site].
    rewrite check_call_twice; cbn [world log app].
    change (install_cmd (ProjectPy.post_init_setup_cfg config self) [] false exe)
      with (exe :: ProjectPy.pip_install_options
                ++ ProjectPy.requirements (ProjectPy.post_init_setup_cfg config self)).
    by rewrite H1, H2.
  - intros x. unfold ProjectPy.post_init_setup_cfg at 1; simpl.
    rewrite sorted_Permutation, !elem_of_app. reflexivity.
Qed.

End pip_install_edges.

Lemma pip_install_without_interpreter_witness :
  ProjectPy.pip_install unprovisioned_project [] false false (mkLogged [1; 1] [])
  = (Raise (TypeError "expected str, bytes or os.PathLike object, not NoneType"),
     mkLogged [1; 1] []).
Proof.
  exact (pip_install_without_interpreter unprovisioned_project [] false false
           (mkLogged [1; 1] []) eq_refl).
Defined.

Lemma pip_install_installs_requirements_witness :
  ProjectPy.pip_install
    (ProjectPy.post_init_setup_cfg
       (ProjectPy.mkConfig None (Some (ProjectPy.mkOptions None (Some ["toml"]) None)))
       fresh_project)
    [] false false (mkLogged ([] : list Z) [])
  = (Ok tt,
     mkLogged []
       [upgrade_pip_cmd "/repo/venv/bin/python";
        "/repo/venv/bin/python"
        :: ProjectPy.pip_install_options
           ++ ProjectPy.requirements
                (ProjectPy.post_init_setup_cfg
                   (ProjectPy.mkConfig None
                      (Some (ProjectPy.mkOptions None (Some ["toml"]) None)))
                   fresh_project)]) /\
  (forall x,
     x ∈ ProjectPy.requirements
           (ProjectPy.post_init_setup_cfg
              (ProjectPy.mkConfig None
                 (Some (ProjectPy.mkOptions None (Some ["toml"]) None)))
              fresh_project)
     <-> x ∈ ProjectPy.install_requires
               (ProjectPy.post_init_setup_cfg
                  (ProjectPy.mkConfig None
                     (Some (ProjectPy.mkOptions None (Some ["toml"]) None)))
                  fresh_project)
         \/ x ∈ ProjectPy.extras_require
                  (ProjectPy.post_init_setup_cfg
                     (ProjectPy.mkConfig None
                        (Some (ProjectPy.mkOptions None (Some ["toml"]) None)))
                     fresh_project)
         \/ x ∈ CORE_VENV_DEPS).
Proof.
  exact (pip_install_installs_requirements
           (ProjectPy.mkConfig None
              (Some (ProjectPy.mkOptions None (Some ["toml"]) None)))
           fresh_project false "/repo/venv/bin/python" ([] : list Z)
           eq_refl eq_refl eq_refl).
Defined.

(** ** Round trip of a path through its string *)

Lemma app_cons (x : ascii) (a b : string) : String x a +:+ b = String x (a +:+ b).
Proof. reflexivity. Qed.

Lemma length_app (a b : string) :
  String.length (a +:+ b) = (String.length a + String.length b)%nat.
Proof. induction a as [|x a IH]; [done|]. rewrite app_cons; simpl. by rewrite IH. Qed.

Lemma has_char_app (c : ascii) (a b : string) :
  has_char c (a +:+ b) = has_char c a || has_char c b.
Proof.
  induction a as [|x a IH]; [done|]. rewrite app_cons; simpl.
  by rewrite IH, orb_assoc.
Qed.

Lemma has_char_substring (c : ascii) (s : string) (i m : nat) :
  has_char c s = false -> has_char c (String.substring i m s) = false.
Proof.
  revert i m. induction s as [|x s IH]; intros i m H.
  - by destruct i, m.
  - simpl in H. apply orb_false_iff in H as [Hx Hs].
    destruct i as [|i]; [destruct m as [|m]; [done|]|]; simpl.
    + by rewrite Hx, IH.
    + by apply IH.
Qed.

Lemma substring_app_l (a b : string) :
  String.substring 0 (String.length a) (a +:+ b) = a.
Proof.
  induction a as [|x a IH]; [by destruct b|]. rewrite app_cons; simpl.
  by rewrite IH.
Qed.

Lemma substring_whole (s : string) : String.substring 0 (String.length s) s = s.
Proof. induction s as [|x s IH]; [done|]. simpl. by rewrite IH. Qed.

Lemma substring_app_r (a b : string) (m : nat) :
  String.substring (String.length a) m (a +:+ b) = String.substring 0 m b.
Proof. induction a as [|x a IH]; [done|]. rewrite app_cons; simpl. apply IH. Qed.

Lemma length_substring (s : string) (i m : nat) :
  (i + m <= String.length s)%nat -> String.length (String.substring i m s) = m.
Proof.
  revert i m. induction s as [|x s IH]; intros i m H; simpl in H.
  - assert (i = 0 /\ m = 0)%nat as [-> ->] by lia. done.
  - destruct i as [|i]; [destruct m as [|m]; [done|]|]; simpl.
    + f_equal. apply IH. lia.
    + apply IH. lia.
Qed.

Lemma rfind_app_git (stem : string) :
  rfind "." (stem +:+ ".git") = Some (String.length stem).
Proof.
  induction stem as [|x stem IH]; [done|]. rewrite app_cons; simpl.
  by rewrite IH.
Qed.

(** The name that [with_suffix(".git")] gives: a stem that is not empty, and
    that has no slash when the old name has none, followed by [.git]. *)
Lemma replace_suffix_git (p : pathlib.Path) :
  pathlib.name p <> "" ->
  exists stem,
    pathlib.replace_suffix (pathlib.name p) (pathlib.suffix p) ".git"
    = stem +:+ ".git" /\
    stem <> "" /\
    (has_char "/" (pathlib.name p) = false -> has_char "/" stem = false).
Proof.
  intros Hn. unfold pathlib.replace_suffix, pathlib.suffix.
  set (n := pathlib.name p) in *.
  destruct (rfind "." n) as [i|]; [|by exists n].
  destruct ((0 <? i)%nat && (i <? String.length n - 1)%nat) eqn:Hc; [|by exists n].
  apply andb_true_iff in Hc as [Hi Hj].
  apply Nat.ltb_lt in Hi. apply Nat.ltb_lt in Hj.
  assert (Hlen : String.length (String.substring i (String.length n - i) n)
                 = (String.length n - i)%nat) by (apply length_substring; lia).
  assert (Ht : truthy (String.substring i (String.length n - i) n) = true).
  { apply truthy_true. intros E. rewrite E in Hlen. simpl in Hlen. lia. }
  rewrite Ht, Hlen.
  exists (String.substring 0 (String.length n - (String.length n - i)) n).
  split; [done|]. split.
  - intros E.
    assert (Hl : String.length
                   (String.substring 0 (String.length n - (String.length n - i)) n)
                 = (String.length n - (String.length n - i))%nat)
      by (apply length_substring; lia).
    rewrite E in Hl. simpl in Hl. lia.
  - apply has_char_substring.
Qed.

Lemma suffix_of_git (rt : string) (l : list string) (stem : string) :
  stem <> "" ->
  pathlib.suffix (pathlib.mkPath rt (l ++ [stem +:+ ".git"])) = ".git".
Proof.
  intros Hs. unfold pathlib.suffix, pathlib.name; simpl. rewrite last_last.
  rewrite rfind_app_git, length_app; simpl.
  assert (0 < String.length stem)%nat by (destruct stem; [done|simpl; lia]).
  assert (H0 : (0 <? String.length stem)%nat = true) by by apply Nat.ltb_lt.
  assert (H1 : (String.length stem <? String.length stem + 4 - 1)%nat = true)
    by (apply Nat.ltb_lt; lia).
  rewrite H0, H1; simpl.
  replace (String.length stem + 4 - String.length stem)%nat with 4%nat by lia.
  by rewrite substring_app_r.
Qed.

(** Applying [with_suffix(".git")] a second time changes nothing. *)
Lemma dot_git_idempotent (p : pathlib.Path) :
  pathlib.name p <> "" -> dot_git (dot_git p) = dot_git p.
Proof.
  intros Hn. destruct (replace_suffix_git p Hn) as (stem & Hstem & Hne & _).
  unfold dot_git at 2. rewrite Hstem.
  unfold dot_git. cbn [pathlib.root pathlib.parts].
  rewrite suffix_of_git by done.
  unfold pathlib.name; cbn [pathlib.parts]. rewrite last_last, removelast_last.
  f_equal. f_equal. f_equal. unfold pathlib.replace_suffix; simpl.
  rewrite length_app; simpl.
  replace (String.length stem + 4 - 4)%nat with (String.length stem) by lia.
  by rewrite substring_app_l.
Qed.

Lemma split_no_sep_id (c : ascii) (x : string) :
  has_char c x = false -> split c x = [x].
Proof.
  induction x as [|a x IH]; [done|]. simpl. intros H.
  apply orb_false_iff in H as [Ha Hx]. by rewrite Ha, IH.
Qed.

Lemma split_app_sep (c : ascii) (x rest : string) :
  has_char c x = false ->
  split c (x +:+ String c rest) = x :: split c rest.
Proof.
  induction x as [|a x IH]; intros H.
  - change (split c (String c rest) = "" :: split c rest). simpl.
    by rewrite Ascii.eqb_refl.
  - simpl in H. apply orb_false_iff in H as [Ha Hx].
    rewrite app_cons. simpl. by rewrite Ha, IH.
Qed.

Lemma split_concat (l : list string) :
  Forall wf_part l -> l <> [] -> split "/" (String.concat "/" l) = l.
Proof.
  induction l as [|x l IH]; [done|]. intros Hwf _.
  apply Forall_cons in Hwf as [(_ & _ & Hx) Hl].
  destruct l as [|y l]; [by apply split_no_sep_id|].
  rewrite concat_cons by done.
  change ("/" +:+ String.concat "/" (y :: l))
    with (String "/" (String.concat "/" (y :: l))).
  rewrite split_app_sep by done. by rewrite IH.
Qed.

Lemma filter_keep_wf (l : list string) :
  Forall wf_part l -> filter (fun x => Is_true (pathlib.keep_part x)) l = l.
Proof.
  induction 1 as [|x l (Hne & Hd & _) _ IH]; [done|].
  rewrite filter_cons_True; [by rewrite IH|].
  unfold pathlib.keep_part. apply Is_true_true, andb_true_iff. split.
  - by apply truthy_true.
  - by apply negb_true_iff, String.eqb_neq.
Qed.

Lemma lstrip_not_absolute (rest : string) :
  startswith rest "/" = false -> lstrip "/" rest = rest.
Proof.
  destruct rest as [|a rest]; [done|]. unfold startswith. cbn [String.prefix].
  destruct (ascii_dec "/" a) as [<-|Hn]; [by destruct rest|].
  intros _. simpl. destruct (Ascii.eqb_spec a "/") as [->|]; [contradiction|done].
Qed.

(** Parsing a root followed by a relative rest. *)
Lemma parse_root_rest (rt rest : string) :
  rt = "" \/ rt = "/" \/ rt = "//" ->
  startswith rest "/" = false ->
  pathlib.parse (rt +:+ rest)
  = pathlib.mkPath rt (filter (fun x => Is_true (pathlib.keep_part x))
                              (split "/" rest)).
Proof.
  intros Hrt Hrest. pose proof (lstrip_not_absolute rest Hrest) as Hl.
  unfold pathlib.parse, pathlib.splitroot.
  destruct Hrt as [->|[->| ->]].
  - change ("" +:+ rest) with rest. by rewrite Hrest.
  - change ("/" +:+ rest) with (String "/" rest).
    rewrite startswith_slash_cons.
    change (lstrip "/" (String "/" rest)) with (lstrip "/" rest). rewrite Hl.
    replace (String.length (String "/" rest) - String.length rest)%nat with 1%nat
      by (simpl; lia).
    done.
  - change ("//" +:+ rest) with (String "/" (String "/" rest)).
    rewrite startswith_slash_cons.
    change (lstrip "/" (String "/" (String "/" rest))) with (lstrip "/" rest).
    rewrite Hl.
    replace (String.length (String "/" (String "/" rest)) - String.length rest)%nat
      with 2%nat by (simpl; lia).
    done.
Qed.

Lemma concat_not_absolute (l : list string) :
  Forall wf_part l -> startswith (String.concat "/" l) "/" = false.
Proof.
  destruct 1 as [|x l Hx Hl]; [done|].
  pose proof (wf_part_not_absolute x Hx) as Hs. destruct Hx as (Hne & _).
  destruct x as [|a x]; [done|].
  destruct l as [|y l]; [done|]. rewrite concat_cons by done.
  rewrite app_cons. unfold startswith in *. cbn [String.prefix] in *.
  destruct (ascii_dec "/" a); [|done].
  pose proof (startswith_empty x) as E. unfold startswith in E. congruence.
Qed.

(** A well-formed path is parsed back from its string. *)
Lemma parse_str (p : pathlib.Path) : wf_path p -> pathlib.parse (pathlib.str p) = p.
Proof.
  destruct p as [rt l]. intros [Hrt Hl]; simpl in *. unfold pathlib.str; simpl.
  destruct l as [|x l].
  - destruct Hrt as [->|[->| ->]]; by vm_compute.
  - assert (Ht : truthy (rt +:+ String.concat "/" (x :: l)) = true).
    { apply truthy_true. intros E. apply string_app_empty in E as [_ E].
      apply concat_empty_last in E.
      assert (Hlast : wf_part (List.last (x :: l) "")).
      { destruct (exists_last (l:=x :: l)) as (l' & z & Hz); [done|].
        rewrite Hz in *. rewrite last_last. apply Forall_app in Hl as [_ Hl].
        by apply Forall_cons in Hl as [Hl _]. }
      destruct Hlast as [Hlast _]. contradiction. }
    rewrite Ht, parse_root_rest by (done || by apply concat_not_absolute).
    by rewrite split_concat, filter_keep_wf.
Qed.

Lemma dot_git_wf (p : pathlib.Path) :
  wf_path p -> pathlib.name p <> "" -> wf_path (dot_git p).
Proof.
  intros [Hrt Hl] Hn. destruct (replace_suffix_git p Hn) as (stem & Hstem & Hne & Hc).
  unfold dot_git. rewrite Hstem. split; [done|]. cbn [pathlib.parts].
  destruct (exists_last (name_parts_nonempty p Hn)) as (l' & z & Hz).
  unfold pathlib.name in Hc. rewrite Hz in *. rewrite last_last in Hc.
  rewrite removelast_last. apply Forall_app in Hl as [Hl' Hz'].
  apply Forall_cons in Hz' as [(_ & _ & Hzc) _].
  apply Forall_app. split; [done|]. apply Forall_cons. split; [|done].
  split; [|split].
  - intros E. by apply string_app_empty in E as [_ E].
  - intros E. destruct stem as [|a stem]; [done|]. rewrite app_cons in E.
    injection E as _ E. by apply string_app_empty in E as [_ E].
  - rewrite has_char_app, (Hc Hzc). done.
Qed.

(** The string of a well-formed path with a root starts with a slash. *)
Lemma str_absolute (p : pathlib.Path) :
  wf_path p -> pathlib.root p = "/" \/ pathlib.root p = "//" ->
  startswith (pathlib.str p) "/" = true.
Proof.
  intros _ Hr. unfold pathlib.str.
  assert (Hs : exists rest,
    pathlib.root p +:+ String.concat "/" (pathlib.parts p) = String "/" rest).
  { destruct Hr as [-> | ->]; by eexists. }
  destruct Hs as [rest ->]. simpl. apply startswith_slash_cons.
Qed.

(** ** The URL of the file scheme is a fixed point *)

(** X13: taking the path entry of a URL of the file scheme as the repo of
    another [OwnerRepo], whatever its owner, gives the same URL again: the
    entry is a normal absolute path that already ends in [.git], which
    [with_suffix] keeps as it is. *)
Theorem url_git_file_idempotent (cwd cwd' owner' : string) (self : OwnerRepo.t)
    (u : furl.t) (entry : string) :
  OwnerRepo.url cwd self git_file = Ok u ->
  furl.segments u = [entry] ->
  OwnerRepo.url cwd' (OwnerRepo.mk owner' entry) git_file = Ok u.
Proof.
  rewrite !url_git_file.
  destruct (startswith (OwnerRepo.repo self) "/") eqn:Hs; simpl; [|discriminate].
  destruct (truthy (pathlib.name (pathlib.parse (OwnerRepo.repo self)))) eqn:Hn;
    [|discriminate].
  apply truthy_true in Hn. intros [= <-] [= <-].
  set (p := pathlib.parse (OwnerRepo.repo self)) in *.
  pose proof (dot_git_wf p (parse_wf _) Hn) as Hwf.
  assert (Habs : startswith (pathlib.str (dot_git p)) "/" = true).
  { apply str_absolute; [apply Hwf|]. cbn [dot_git pathlib.root].
    apply (root_of_absolute _ Hs). }
  rewrite Habs, (parse_str _ Hwf); simpl.
  assert (Hname : pathlib.name (dot_git p) <> "").
  { destruct (replace_suffix_git p Hn) as (stem & Hstem & _).
    unfold dot_git. rewrite Hstem. unfold pathlib.name; cbn [pathlib.parts].
    rewrite last_last. intros E. by apply string_app_empty in E as [_ E]. }
  apply truthy_true in Hname. rewrite Hname. by rewrite dot_git_idempotent.
Qed.

Lemma url_git_file_idempotent_witness :
  OwnerRepo.url "/home" (OwnerRepo.mk "python" "/tmp/my.git") git_file
  = Ok (furl.mk (Some "git+file") None None ["/tmp/my.git"] false).
Proof.
  exact (url_git_file_idempotent "/" "/home" "python"
           (OwnerRepo.mk "j5pu" "/tmp//my.repo/")
           (furl.mk (Some "git+file") None None ["/tmp/my.git"] false)
           "/tmp/my.git" eq_refl eq_refl).
Defined.

(** ** [pip_install] with packages given *)

(** X14: packages given to [pip_install] replace the requirements of the
    project, they are not added to them: with a non-empty argument list the
    outcome and the commands spawned are the same for two projects that
    share the selected interpreter, whatever their requirements. *)
Theorem pip_install_args_replace {W : Type} `{!ProjectPy.Subprocess W}
    (self self' : ProjectPy.t) (args : list string) (site upgrade : bool)
    (s : Logged W (list string)) :
  args <> [] ->
  (if site then ProjectPy.python_exe_site self else ProjectPy.python_exe_venv self)
  = (if site then ProjectPy.python_exe_site self'
     else ProjectPy.python_exe_venv self') ->
  ProjectPy.pip_install self args site upgrade s
  = ProjectPy.pip_install self' args site upgrade s.
Proof.
  intros Ha He. unfold ProjectPy.pip_install. rewrite He.
  by rewrite !bool_decide_eq_true_2.
Qed.

Lemma pip_install_args_replace_witness :
  ProjectPy.pip_install fresh_project ["furl"] false true (mkLogged [0; 3] [])
  = ProjectPy.pip_install
      (ProjectPy.post_init_setup_cfg
         (ProjectPy.mkConfig None (Some (ProjectPy.mkOptions None (Some ["toml"]) None)))
         fresh_project)
      ["furl"] false true (mkLogged [0; 3] []).
Proof.
  exact (pip_install_args_replace fresh_project
           (ProjectPy.post_init_setup_cfg
              (ProjectPy.mkConfig None
                 (Some (ProjectPy.mkOptions None (Some ["toml"]) None)))
              fresh_project)
           ["furl"] false true (mkLogged [0; 3] [])
           ltac:(discriminate) eq_refl).
Defined.

(** ** The rendered URL of the file scheme *)

Lemma startswith_slash_inv (e : string) :
  startswith e "/" = true -> exists rest, e = String "/" rest.
Proof.
  destruct e as [|a e]; [done|]. unfold startswith. cbn [String.prefix].
  destruct (ascii_dec "/" a) as [<-|]; [|done]. by eexists.
Qed.

(** Whenever [url] returns under the file scheme, the URL is the scheme
    and a colon followed by a percent sign: the first slash of the path is
    percent-encoded, and no [//] follows the scheme. *)
Lemma url_git_file_rendering (cwd : string) (self : OwnerRepo.t) (u : furl.t) :
  OwnerRepo.url cwd self git_file = Ok u ->
  exists rest, furl.tostr u = "git+file:%2F" +:+ rest.
Proof.
  rewrite url_git_file.
  destruct (startswith (OwnerRepo.repo self) "/") eqn:Hs; simpl; [|discriminate].
  destruct (truthy _) eqn:Hn; [|discriminate]. intros [= <-].
  apply truthy_true in Hn. rewrite tostr_file_furl.
  destruct (startswith_slash_inv
              (pathlib.str (dot_git (pathlib.parse (OwnerRepo.repo self)))))
    as [rest ->].
  - apply str_absolute; [by apply dot_git_wf; [apply parse_wf|]|].
    cbn [dot_git pathlib.root]. by apply root_of_absolute.
  - by eexists.
Qed.

(** C5: for the repo [/tmp/cpython] of the docstring, [url] under the file
    scheme hands [furl] the scheme [git+file], no host, and the whole path
    [/tmp/cpython.git] as a single path entry.  The URL renders as
    [git+file:%2Ftmp%2Fcpython.git], the slashes of the path being
    percent-encoded and no [//] following the scheme: it is neither the
    [git+file:///tmp/cpython.git] of the docstring and of the [GITHUB_URL]
    table nor a [file:///tmp/cpython.git]. *)
Theorem url_git_file_cpython :
  furl.tostr <$> OwnerRepo.url "/" (OwnerRepo.mk "cpython" "/tmp/cpython") git_file
  = Ok "git+file:%2Ftmp%2Fcpython.git" /\
  furl.segments <$> OwnerRepo.url "/" (OwnerRepo.mk "cpython" "/tmp/cpython") git_file
  = Ok ["/tmp/cpython.git"] /\
  furl.tostr <$> OwnerRepo.url "/" (OwnerRepo.mk "cpython" "/tmp/cpython") git_file
  <> Ok "git+file:///tmp/cpython.git" /\
  furl.tostr <$> OwnerRepo.url "/" (OwnerRepo.mk "cpython" "/tmp/cpython") git_file
  <> Ok ("file://" +:+ "/tmp/cpython" +:+ ".git") /\
  GITHUB_URL !! "git+file" = Some "git+file:///".
Proof.
  assert (E : furl.tostr
                <$> OwnerRepo.url "/" (OwnerRepo.mk "cpython" "/tmp/cpython") git_file
              = Ok "git+file:%2Ftmp%2Fcpython.git") by (by vm_compute).
  rewrite E. split; [reflexivity|]. split; [by vm_compute|].
  split; [discriminate|]. split; [discriminate|]. by vm_compute.
Qed.
